(** * farm-backend: the interest lifecycle of [src/index.js]

    A shallow embedding of the Express handlers of [src/index.js] that deal
    with buyer interests and crop updates, together with the part of the
    MongoDB document store they talk to.

    - JavaScript values (request bodies, stored documents) are the type
      [value]; a document is a [VObj] holding its fields in order.
    - A handler is a [proc]: a finite tree of store commands, each of which
      the store executes atomically.  Awaiting a command is the only place
      where another request can run, so the interleavings of two handlers
      are the interleavings of their commands.
    - The collection is a list of documents in natural order.

    The handlers are modelled once [run()] has connected, i.e. with
    [cropsCollection] bound to the collection. *)

From Stdlib Require Import List String Ascii Bool Arith ZArith NArith QArith Lia.
Import ListNotations.
Set Warnings "-register-all".
Close Scope Q_scope.
Local Open Scope nat_scope.
Local Open Scope string_scope.
Local Open Scope list_scope.

(** ** JavaScript and BSON values *)

(** [ObjectId]: the 96-bit value of a store identifier. *)
Definition ObjectId := N.

Inductive value : Type :=
| VUndef
| VNull
| VBool (b : bool)
| VNum (q : Q)
| VStr (s : string)
| VOid (o : ObjectId)
| VDate (t : Z)
| VArr (l : list value)
| VObj (fields : list (string * value)).

Definition fields := list (string * value).

Fixpoint assoc (k : string) (fs : fields) : option value :=
  match fs with
  | [] => None
  | (k', v) :: fs' => if String.eqb k k' then Some v else assoc k fs'
  end.

(** Replace the first binding of [k], or add one at the end. *)
Fixpoint assoc_set (k : string) (v : value) (fs : fields) : fields :=
  match fs with
  | [] => [(k, v)]
  | (k', v') :: fs' =>
      if String.eqb k k' then (k', v) :: fs' else (k', v') :: assoc_set k v fs'
  end.

(** [o.k] for the property names this program reads ([userEmail], [owner],
    [ownerEmail], [ownerName], [interests], [name], [_id], [quantity],
    [message], [status]) on a value that is neither [undefined] nor [null]:
    the field of a plain object, [undefined] on anything else. *)
Definition get_prop (o : value) (k : string) : value :=
  match o with
  | VObj fs => match assoc k fs with Some v => v | None => VUndef end
  | _ => VUndef
  end.

Definition nullish (v : value) : bool :=
  match v with VUndef | VNull => true | _ => false end.

(** [o?.k] *)
Definition get_prop_opt (o : value) (k : string) : value :=
  if nullish o then VUndef else get_prop o k.

(** [o.k] where [o] may be nullish: [None] is the TypeError. *)
Definition get_prop_strict (o : value) (k : string) : option value :=
  if nullish o then None else Some (get_prop o k).

(** ToBoolean. *)
Definition truthy (v : value) : bool :=
  match v with
  | VUndef | VNull => false
  | VBool b => b
  | VNum q => negb (Qeq_bool q 0%Q)
  | VStr s => negb (String.eqb s "")
  | VOid _ | VDate _ | VArr _ | VObj _ => true
  end.

(** [a === b].  Objects, arrays, ObjectIds and Dates are compared by
    reference; a value decoded from the store and a value decoded from a
    request are never the same reference. *)
Definition strict_eq (a b : value) : bool :=
  match a, b with
  | VUndef, VUndef => true
  | VNull, VNull => true
  | VBool x, VBool y => Bool.eqb x y
  | VNum x, VNum y => Qeq_bool x y
  | VStr x, VStr y => String.eqb x y
  | _, _ => false
  end.

(** What the driver writes for a JavaScript value: [undefined] becomes
    [null] (the driver's default, [ignoreUndefined] unset). *)
Fixpoint bson (v : value) : value :=
  match v with
  | VUndef => VNull
  | VArr l => VArr (map bson l)
  | VObj fs => VObj (map (fun kv => (fst kv, bson (snd kv))) fs)
  | _ => v
  end.

(** ** ObjectId *)

Definition hex_digit (c : ascii) : option N :=
  let n := N_of_ascii c in
  if ((48 <=? n) && (n <=? 57))%N then Some (n - 48)%N
  else if ((97 <=? n) && (n <=? 102))%N then Some (n - 87)%N
  else if ((65 <=? n) && (n <=? 70))%N then Some (n - 55)%N
  else None.

Fixpoint hex_value (acc : N) (s : string) : option N :=
  match s with
  | EmptyString => Some acc
  | String c s' =>
      match hex_digit c with
      | Some d => hex_value (16 * acc + d)%N s'
      | None => None
      end
  end.

(** [new ObjectId(s)] for a string [s]: a 24 character hex string, anything
    else throws ([None]). *)
Definition ObjectId_new (s : string) : option ObjectId :=
  if Nat.eqb (String.length s) 24 then hex_value 0%N s else None.

(** [ObjectId.isValid(s)] *)
Definition ObjectId_isValid (s : string) : bool :=
  match ObjectId_new s with Some _ => true | None => false end.

(** ** The document store

    The MongoDB collection [Crops], as far as the handlers use it: equality
    queries on [_id], on [interests._id] and on [interests.userEmail], and
    the update operators [$push] and [$set].  Every command acts on one
    document and is atomic. *)

Definition store := list value.

(** Equality of stored values (field order matters for documents). *)
Fixpoint value_eqb (a b : value) : bool :=
  match a, b with
  | VUndef, VUndef => true
  | VNull, VNull => true
  | VBool x, VBool y => Bool.eqb x y
  | VNum x, VNum y => Qeq_bool x y
  | VStr x, VStr y => String.eqb x y
  | VOid x, VOid y => N.eqb x y
  | VDate x, VDate y => Z.eqb x y
  | VArr l, VArr l' =>
      (fix go (l l' : list value) : bool :=
         match l, l' with
         | [], [] => true
         | x :: xs, y :: ys => value_eqb x y && go xs ys
         | _, _ => false
         end) l l'
  | VObj fs, VObj fs' =>
      (fix go (fs fs' : fields) : bool :=
         match fs, fs' with
         | [], [] => true
         | (k, x) :: xs, (k', y) :: ys =>
             String.eqb k k' && value_eqb x y && go xs ys
         | _, _ => false
         end) fs fs'
  | _, _ => false
  end.

(** A field value [u] satisfies the equality condition [target] when it is
    equal to it or is an array with an element equal to it. *)
Definition mongo_eq (target u : value) : bool :=
  value_eqb u target
  || match u with VArr l => existsb (fun x => value_eqb x target) l | _ => false end.

(** [x] is an embedded document whose field [k] satisfies [target]. *)
Definition elem_matches (k : string) (target x : value) : bool :=
  match x with
  | VObj fs => match assoc k fs with Some u => mongo_eq target u | None => false end
  | _ => false
  end.

(** The condition [{ "interests.<k>": target }]. *)
Definition interests_match (k : string) (target d : value) : bool :=
  match get_prop d "interests" with
  | VArr l => existsb (elem_matches k target) l
  | VObj fs => elem_matches k target (VObj fs)
  | _ => false
  end.

Definition has_id (cid : ObjectId) (d : value) : bool :=
  match get_prop d "_id" with VOid o => N.eqb o cid | _ => false end.

Inductive query : Type :=
| QId (cid : ObjectId)
    (** [{ _id: cid }] *)
| QIdInterest (cid iid : ObjectId)
    (** [{ _id: cid, "interests._id": iid }] *)
| QInterestEmail (email : string)
    (** [{ "interests.userEmail": email }] *).

Definition matches (q : query) (d : value) : bool :=
  match q with
  | QId cid => has_id cid d
  | QIdInterest cid iid => has_id cid d && interests_match "_id" (VOid iid) d
  | QInterestEmail e => interests_match "userEmail" (VStr e) d
  end.

Fixpoint find_index {A : Type} (p : A -> bool) (l : list A) : option nat :=
  match l with
  | [] => None
  | x :: l' => if p x then Some 0 else option_map S (find_index p l')
  end.

(** The array position the query matched in [interests], which the
    positional operator [$] stands for. *)
Definition position (q : query) (d : value) : option nat :=
  match get_prop d "interests" with
  | VArr l =>
      match q with
      | QId _ => None
      | QIdInterest _ iid => find_index (elem_matches "_id" (VOid iid)) l
      | QInterestEmail e => find_index (elem_matches "userEmail" (VStr e)) l
      end
  | _ => None
  end.

Fixpoint replace_nth {A : Type} (n : nat) (x : A) (l : list A) : list A :=
  match l, n with
  | [], _ => []
  | _ :: l', O => x :: l'
  | y :: l', S n' => y :: replace_nth n' x l'
  end.

Fixpoint map_all {A B : Type} (f : A -> option B) (l : list A) : option (list B) :=
  match l with
  | [] => Some []
  | x :: l' =>
      match f x, map_all f l' with
      | Some y, Some ys => Some (y :: ys)
      | _, _ => None
      end
  end.

(** A field path, split at its dots. *)
Fixpoint split_dots (s : string) : list string :=
  match s with
  | EmptyString => [""]
  | String c s' =>
      let r := split_dots s' in
      if Ascii.eqb c "."%char then "" :: r
      else match r with
           | h :: t => String c h :: t
           | [] => [String c ""]
           end
  end.

Definition starts_dollar (k : string) : bool :=
  match k with String c _ => Ascii.eqb c "$"%char | EmptyString => false end.

(** Path components the update operators refuse as field names. *)
Definition bad_name (k : string) : bool :=
  String.eqb k "" || starts_dollar k.

Definition digit (c : ascii) : option nat :=
  let n := nat_of_ascii c in
  if ((48 <=? n) && (n <=? 57))%nat then Some (n - 48) else None.

Fixpoint digits (acc : nat) (s : string) : option nat :=
  match s with
  | EmptyString => Some acc
  | String c s' =>
      match digit c with
      | Some d => digits (10 * acc + d) s'
      | None => None
      end
  end.

(** A path component that is an array index: [0], or digits without a
    leading zero. *)
Definition index_of (k : string) : option nat :=
  match k with
  | EmptyString => None
  | String c rest =>
      if Ascii.eqb c "0"%char then (if String.eqb rest "" then Some 0 else None)
      else digits 0 k
  end.

(** The value created for a path that does not exist yet: nested documents. *)
Fixpoint build (p : list string) (v : value) : option value :=
  match p with
  | [] => Some v
  | k :: p' =>
      if bad_name k then None
      else option_map (fun sub => VObj [(k, sub)]) (build p' v)
  end.

(** [$set] of one path in a value; [None] is a write error. *)
Fixpoint set_path (p : list string) (v : value) (d : value) : option value :=
  match p with
  | [] => Some v
  | k :: p' =>
      match d with
      | VObj fs =>
          if bad_name k then None
          else match assoc k fs with
               | Some sub =>
                   option_map (fun sub' => VObj (assoc_set k sub' fs)) (set_path p' v sub)
               | None =>
                   option_map (fun sub' => VObj (fs ++ [(k, sub')])) (build p' v)
               end
      | VArr l =>
          if String.eqb k "$[]" then option_map VArr (map_all (set_path p' v) l)
          else match index_of k with
               | None => None
               | Some n =>
                   match nth_error l n with
                   | Some sub =>
                       option_map (fun sub' => VArr (replace_nth n sub' l))
                                  (set_path p' v sub)
                   | None =>
                       option_map
                         (fun sub' => VArr (l ++ repeat VNull (n - List.length l) ++ [sub']))
                         (build p' v)
                   end
               end
      | _ => None
      end
  end.

Fixpoint is_prefix (p q : list string) : bool :=
  match p, q with
  | [], _ => true
  | _ :: _, [] => false
  | a :: p', b :: q' => String.eqb a b && is_prefix p' q'
  end.

(** Two paths of one update conflict when one is a prefix of the other. *)
Fixpoint conflict (ps : list (list string)) : bool :=
  match ps with
  | [] => false
  | p :: ps' =>
      existsb (fun q => is_prefix p q || is_prefix q p) ps' || conflict ps'
  end.

Fixpoint set_fields (fs : fields) (d : value) : option value :=
  match fs with
  | [] => Some d
  | (k, v) :: fs' =>
      match set_path (split_dots k) (bson v) d with
      | Some d' => set_fields fs' d'
      | None => None
      end
  end.

(** [{ $set: body }] on a document: every key of [body] is a path; the
    update is refused when [body] is not a document, when two paths
    conflict, when a path cannot be created, or when [_id] would change. *)
Definition apply_set (body : value) (d : value) : option value :=
  match body with
  | VObj fs =>
      if conflict (map (fun kv => split_dots (fst kv)) fs) then None
      else match set_fields fs d with
           | Some d' =>
               if value_eqb (get_prop d' "_id") (get_prop d "_id") then Some d' else None
           | None => None
           end
  | _ => None
  end.

(** [{ $push: { interests: i } }]: the array is created when the field is
    absent, and the update is refused when the field is not an array. *)
Definition apply_push (i : value) (d : value) : option value :=
  match d with
  | VObj fs =>
      match assoc "interests" fs with
      | None => Some (VObj (fs ++ [("interests", VArr [bson i])]))
      | Some (VArr l) => Some (VObj (assoc_set "interests" (VArr (l ++ [bson i])) fs))
      | Some _ => None
      end
  | _ => None
  end.

(** [{ $set: { "interests.$.status": st } }] at the matched position. *)
Definition apply_set_status (pos : option nat) (st : value) (d : value) : option value :=
  match d, pos with
  | VObj fs, Some n =>
      match assoc "interests" fs with
      | Some (VArr l) =>
          match nth_error l n with
          | Some e =>
              option_map
                (fun e' => VObj (assoc_set "interests" (VArr (replace_nth n e' l)) fs))
                (set_path ["status"] (bson st) e)
          | None => None
          end
      | _ => None
      end
  | _, _ => None
  end.

Inductive update : Type :=
| UPush (i : value)
    (** [{ $push: { interests: i } }] *)
| USetStatus (st : value)
    (** [{ $set: { "interests.$.status": st } }] *)
| USet (body : value)
    (** [{ $set: body }] *).

Definition apply_update (q : query) (u : update) (d : value) : option value :=
  match u with
  | UPush i => apply_push i d
  | USetStatus st => apply_set_status (position q d) st d
  | USet body => apply_set body d
  end.

Record update_result : Type := {
  matchedCount : nat;
  modifiedCount : nat
}.

(** [updateOne(q, u)]: the first document that matches is updated; [None]
    is a write error, which the driver throws and which leaves the
    collection as it was.  The update document is looked at when it is
    applied to the matching document.  The store itself refuses some
    update documents before it looks for a document (a [$set] of what is
    not a document, or of conflicting or empty paths); the [$push] and the
    positional [$set] of the handlers are never among them, and what is
    proved of a [$set] of a request body that matches no document is
    proved for bodies of one or more distinct plain field names. *)
Fixpoint updateOne (q : query) (u : update) (s : store) : option (update_result * store) :=
  match s with
  | [] => Some ({| matchedCount := 0; modifiedCount := 0 |}, [])
  | d :: s' =>
      if matches q d then
        match apply_update q u d with
        | Some d' =>
            Some ({| matchedCount := 1;
                     modifiedCount := if value_eqb d' d then 0 else 1 |}, d' :: s')
        | None => None
        end
      else
        match updateOne q u s' with
        | Some (r, s'') => Some (r, d :: s'')
        | None => None
        end
  end.

(** [findOne(q)] and [find(q).toArray()] *)
Definition findOne (q : query) (s : store) : option value :=
  List.find (matches q) s.

Definition findAll (q : query) (s : store) : list value :=
  List.filter (matches q) s.

(** ** Handlers as processes over the store *)

Inductive command : Type -> Type :=
| FindOne (q : query) : command (option value)
| FindAll (q : query) : command (list value)
| UpdateOne (q : query) (u : update) : command (option update_result).

Definition exec {A : Type} (c : command A) (s : store) : A * store :=
  match c in command T return T * store with
  | FindOne q => (findOne q s, s)
  | FindAll q => (findAll q s, s)
  | UpdateOne q u =>
      match updateOne q u s with
      | Some (r, s') => (Some r, s')
      | None => (None, s)
      end
  end.

Inductive response : Type :=
| Send (code : nat) (body : value)
    (** [res.status(code).send(body)]; [res.send(body)] has code 200 *)
| Unhandled
    (** the handler threw outside any [try]: it sends nothing *).

(** A handler: it responds, or awaits a store command and goes on with the
    command's result.  For [UpdateOne] the result [None] is the exception
    the driver throws. *)
Inductive proc : Type :=
| Respond (r : response)
| Await {A : Type} (c : command A) (k : A -> proc).

(** A handler run alone, from its request to its response. *)
Fixpoint run (p : proc) (s : store) : response * store :=
  match p with
  | Respond r => (r, s)
  | Await c k => let (a, s') := exec c s in run (k a) s'
  end.

(** One command of a handler. *)
Definition step (p : proc) (s : store) : proc * store :=
  match p with
  | Respond r => (Respond r, s)
  | Await c k => let (a, s') := exec c s in (k a, s')
  end.

(** Handlers in flight together: the schedule names, command by command,
    which handler the store serves next. *)
Fixpoint interleave (sched : list nat) (ps : list proc) (s : store)
  : list proc * store :=
  match sched with
  | [] => (ps, s)
  | i :: sched' =>
      match nth_error ps i with
      | Some p =>
          let (p', s') := step p s in
          interleave sched' (replace_nth i p' ps) s'
      | None => interleave sched' ps s
      end
  end.

(** Requests answered one after the other. *)
Fixpoint run_all (ps : list proc) (s : store) : list response * store :=
  match ps with
  | [] => ([], s)
  | p :: ps' =>
      let (r, s') := run p s in
      let (rs, s'') := run_all ps' s' in
      (r :: rs, s'')
  end.

Definition error (msg : string) : value := VObj [("error", VStr msg)].

Definition success : value := VObj [("success", VBool true)].

(** What each request gets from its environment: the identifier
    [new ObjectId()] generates and the time [new Date()] reads. *)
Record environment : Type := {
  fresh_id : ObjectId;
  now : Z
}.

(** [l.find(i => i.userEmail === userEmail)]: [None] is the TypeError of
    reading a property of [null]. *)
Fixpoint find_by_email (userEmail : value) (l : list value) : option value :=
  match l with
  | [] => Some VUndef
  | i :: l' =>
      match get_prop_strict i "userEmail" with
      | None => None
      | Some u => if strict_eq u userEmail then Some i else find_by_email userEmail l'
      end
  end.

(** [crop.interests?.find(i => i.userEmail === userEmail)]: [None] is a
    TypeError ([find] is not a function of a value that is not an array). *)
Definition existingInterest (crop userEmail : value) : option value :=
  let interests := get_prop crop "interests" in
  if nullish interests then Some VUndef
  else match interests with
       | VArr l => find_by_email userEmail l
       | _ => None
       end.

Definition newInterest (env : environment) (cropId : string)
    (userEmail userName quantity message : value) : value :=
  VObj [ ("_id", VOid (fresh_id env));
         ("cropId", VStr cropId);
         ("userEmail", userEmail);
         ("userName", userName);
         ("quantity", quantity);
         ("message", message);
         ("status", VStr "pending");
         ("createdAt", VDate (now env)) ].

Section SubmitInterest.

(** The outcome of [v < 1] when [v] is a string, an array or an object,
    which JavaScript decides by converting [v] to a number.  The
    conversion is not modelled: the handler is defined, and its
    properties are proved, for every such outcome. *)
Variable lt_one_coerced : value -> bool.

(** [v < 1] *)
Definition lt_one (v : value) : bool :=
  match v with
  | VUndef => false
  | VNull => true
  | VBool b => negb b
  | VNum q => negb (Qle_bool 1 q)
  | _ => lt_one_coerced v
  end.

(** [POST /api/crops/:id/interests] *)
Definition submitInterest (env : environment) (id : string) (body : value) : proc :=
  let failed := Respond (Send 500 (error "Failed to submit interest")) in
  if nullish body then failed
  else
    let userEmail := get_prop body "userEmail" in
    let userName := get_prop body "userName" in
    let quantity := get_prop body "quantity" in
    let message := get_prop body "message" in
    if negb (truthy userEmail) || negb (truthy userName)
    then Respond (Send 400 (error "User info required"))
    else if negb (truthy quantity) || lt_one quantity
    then Respond (Send 400 (error "Quantity must be at least 1"))
    else
      let cropId := id in
      match ObjectId_new cropId with
      | None => failed
      | Some oid =>
          Await (FindOne (QId oid)) (fun found =>
            match found with
            | None => Respond (Send 404 (error "Crop not found"))
            | Some crop =>
                if strict_eq (get_prop_opt (get_prop crop "owner") "ownerEmail") userEmail
                then Respond (Send 403 (error "Owner cannot send interest"))
                else
                  match existingInterest crop userEmail with
                  | None => failed
                  | Some existing =>
                      if truthy existing
                      then Respond (Send 400 (error "You’ve already sent an interest"))
                      else
                        let interest :=
                          newInterest env cropId userEmail userName quantity message in
                        Await (UpdateOne (QId oid) (UPush interest)) (fun result =>
                          match result with
                          | None => failed
                          | Some _ => Respond (Send 200 interest)
                          end)
                  end
            end)
      end.

End SubmitInterest.

(** [PATCH /api/crops/:cropId/interests/:interestId] *)
Definition updateInterestStatus (cropId interestId : string) (body : value) : proc :=
  if nullish body then Respond Unhandled
  else
    let status := get_prop body "status" in
    if negb (ObjectId_isValid cropId) || negb (ObjectId_isValid interestId)
    then Respond (Send 400 (error "Invalid ID(s)"))
    else
      let failed := Respond (Send 500 (error "Failed to update interest status")) in
      match ObjectId_new cropId, ObjectId_new interestId with
      | Some cid, Some iid =>
          Await (UpdateOne (QIdInterest cid iid) (USetStatus status)) (fun result =>
            match result with
            | None => failed
            | Some _ => Respond (Send 200 success)
            end)
      | _, _ => failed
      end.

Definition result_value (r : update_result) : value :=
  VObj [ ("acknowledged", VBool true);
         ("modifiedCount", VNum (inject_Z (Z.of_nat (modifiedCount r))));
         ("upsertedId", VNull);
         ("upsertedCount", VNum 0%Q);
         ("matchedCount", VNum (inject_Z (Z.of_nat (matchedCount r)))) ].

(** [PUT /api/crops/:id]: no [try], so an exception leaves the request
    unanswered. *)
Definition putCrop (id : string) (body : value) : proc :=
  match ObjectId_new id with
  | None => Respond Unhandled
  | Some oid =>
      Await (UpdateOne (QId oid) (USet body)) (fun result =>
        match result with
        | None => Respond Unhandled
        | Some _ => Respond (Send 200 success)
        end)
  end.

(** [PATCH /api/crops/:id] *)
Definition patchCrop (id : string) (body : value) : proc :=
  let failed := Respond (Send 500 (error "Failed to update crop")) in
  match ObjectId_new id with
  | None => failed
  | Some oid =>
      Await (UpdateOne (QId oid) (USet body)) (fun result =>
        match result with
        | None => failed
        | Some r => Respond (Send 200 (result_value r))
        end)
  end.

(** The record [GET /api/my-interests] pushes for interest [i] of [crop]. *)
Definition projection (crop i : value) : value :=
  VObj [ ("_id", get_prop i "_id");
         ("cropName", get_prop crop "name");
         ("ownerName", get_prop_opt (get_prop crop "owner") "ownerName");
         ("quantity", get_prop i "quantity");
         ("message", get_prop i "message");
         ("status", get_prop i "status") ].

(** The inner [forEach] over [crop.interests]: the records it pushes, or
    [None] for the TypeError of reading a property of [null]. *)
Fixpoint pushed (email crop : value) (l : list value) : option (list value) :=
  match l with
  | [] => Some []
  | i :: l' =>
      match get_prop_strict i "userEmail", pushed email crop l' with
      | Some u, Some rest =>
          Some (if strict_eq u email then projection crop i :: rest else rest)
      | _, _ => None
      end
  end.

(** [crop.interests.forEach(...)]: a TypeError when [interests] is not an
    array. *)
Definition crop_records (email crop : value) : option (list value) :=
  match get_prop crop "interests" with
  | VArr l => pushed email crop l
  | _ => None
  end.

(** The outer [forEach] over the crops the query returned. *)
Fixpoint all_records (email : value) (crops : list value) : option (list value) :=
  match crops with
  | [] => Some []
  | crop :: crops' =>
      match crop_records email crop, all_records email crops' with
      | Some rs, Some rest => Some (rs ++ rest)
      | _, _ => None
      end
  end.

(** [GET /api/my-interests?email=...]; [email] is the query parameter,
    absent or a string. *)
Definition listMyInterests (email : option string) : proc :=
  match email with
  | None => Respond (Send 400 (error "Email is required"))
  | Some e =>
      if negb (truthy (VStr e)) then Respond (Send 400 (error "Email is required"))
      else
        Await (FindAll (QInterestEmail e)) (fun allCrops =>
          match all_records (VStr e) allCrops with
          | Some myInterests => Respond (Send 200 (VArr myInterests))
          | None => Respond (Send 500 (error "Failed to fetch interests"))
          end)
  end.

(** ** Vocabulary of the properties *)

(** The two checks that open [submitInterest] let the request through. *)
Definition passes_validation (lt_one_coerced : value -> bool) (body : value) : bool :=
  truthy (get_prop body "userEmail") && truthy (get_prop body "userName")
  && truthy (get_prop body "quantity")
  && negb (lt_one lt_one_coerced (get_prop body "quantity")).

(** The response to a submission the handler takes for a duplicate: the
    conflict of the interest ledger, which this program sends with status
    400. *)
Definition duplicate : response :=
  Send 400 (error "You’ve already sent an interest").

Definition internal : response :=
  Send 500 (error "Failed to submit interest").

Definition forbidden : response :=
  Send 403 (error "Owner cannot send interest").

Definition accepted (r : response) : bool :=
  match r with
  | Send code _ => Nat.eqb code 200
  | Unhandled => false
  end.

(** A request body with a number for [quantity]; how strings and objects
    compare with 1 plays no part in it. *)
Definition submission (userEmail userName : string) (quantity : Q) : value :=
  VObj [ ("userEmail", VStr userEmail);
         ("userName", VStr userName);
         ("quantity", VNum quantity) ].

(** A call of [submitInterest] on the crop [id]: the request's environment
    and its body. *)
Definition call : Type := environment * value.

Definition handle (lt_one_coerced : value -> bool) (id : string) (c : call) : proc :=
  submitInterest lt_one_coerced (fst c) id (snd c).

(** The interest a call of the buyer [e] has the handler build. *)
Definition interest_of (id e : string) (c : call) : value :=
  newInterest (fst c) id (VStr e) (get_prop (snd c) "userName")
    (get_prop (snd c) "quantity") (get_prop (snd c) "message").

(** The crop has no interest from [email] yet and its [interests] field is
    absent or an array. *)
Definition no_interest_from (email crop : value) : bool :=
  match crop with
  | VObj fs =>
      match assoc "interests" fs with
      | None => true
      | Some (VArr l) =>
          match find_by_email email l with
          | Some VUndef => true
          | _ => false
          end
      | Some _ => false
      end
  | _ => false
  end.

(** The first crop with this identifier holds an interest that the
    handler's lookup for [email] finds, and [email] is not its owner's. *)
Definition already_sent (oid : ObjectId) (email : value) (s : store) : Prop :=
  exists crop existing,
    findOne (QId oid) s = Some crop
    /\ strict_eq (get_prop_opt (get_prop crop "owner") "ownerEmail") email = false
    /\ existingInterest crop email = Some existing
    /\ truthy existing = true.

(** A rejection with status 400, which is the duplicate response when the
    request passes validation. *)
Definition turned_down (lt_one_coerced : value -> bool) (body : value) (r : response) : Prop :=
  (exists msg, r = Send 400 (error msg))
  /\ (passes_validation lt_one_coerced body = true -> r = duplicate).

Definition interests_of (crop : value) : list value :=
  match get_prop crop "interests" with
  | VArr l => l
  | _ => []
  end.

(** The interest that [updateInterestStatus] addresses: the element of the
    [interests] array that the query's condition on [interests._id]
    matches first, in the first crop the query matches. *)
Definition target_interest (cid iid : ObjectId) (s : store) : option value :=
  match findOne (QIdInterest cid iid) s with
  | Some crop =>
      match position (QIdInterest cid iid) crop with
      | Some n => nth_error (interests_of crop) n
      | None => None
      end
  | None => None
  end.

(** [interests] as the data model has it: absent, or a sequence of
    interest documents. *)
Definition is_document (v : value) : bool :=
  match v with VObj _ => true | _ => false end.

Definition well_formed_crop (crop : value) : bool :=
  match get_prop crop "interests" with
  | VUndef | VNull => true
  | VArr l => forallb is_document l
  | _ => false
  end.

(** Follows the specification's words for [listMyInterests]: one projected
    record for each interest of each crop whose [userEmail] is the
    argument. *)
Definition sent_by (email : string) (i : value) : bool :=
  strict_eq (get_prop i "userEmail") (VStr email).

Definition spec_my_interests (email : string) (s : store) : list value :=
  flat_map (fun crop => map (projection crop) (filter (sent_by email) (interests_of crop))) s.

(** A crop whose [interests] field is absent or an empty array. *)
Definition without_interests (crop : value) : bool :=
  match get_prop crop "interests" with
  | VUndef => true
  | VArr [] => true
  | _ => false
  end.



(** A field name that is a path of its own. *)
Definition plain_name (f : string) : bool :=
  match split_dots f with
  | [k] => negb (bad_name k)
  | _ => false
  end.

(** ** The scenario of the specification

    Crop [C] is owned by [a@x.com]; the requests of the examples name it
    by its identifier. *)

Definition crop_id : string := "64b64c1f9d3e2a0012345678".

Definition crop_oid : ObjectId := 31168884964336673652611503736%N.

Definition crop_C : value :=
  VObj [ ("_id", VOid crop_oid);
         ("name", VStr "Rice");
         ("owner", VObj [("ownerEmail", VStr "a@x.com"); ("ownerName", VStr "A")]) ].

Definition first_request : environment := {| fresh_id := 1%N; now := 1000%Z |}.

Definition second_request : environment := {| fresh_id := 2%N; now := 2000%Z |}.

Definition interest_id : string := "000000000000000000000001".

(** The interest of [b@x.com] as the store holds it, with a given
    [status]. *)
Definition interest_b (status : value) : value :=
  VObj [ ("_id", VOid 1%N);
         ("cropId", VStr crop_id);
         ("userEmail", VStr "b@x.com");
         ("userName", VStr "B");
         ("quantity", VNum 2%Q);
         ("message", VNull);
         ("status", status);
         ("createdAt", VDate 1000%Z) ].

(** Crop [C] holding the given interests. *)
Definition crop_C_with (interests : list value) : value :=
  VObj [ ("_id", VOid crop_oid);
         ("name", VStr "Rice");
         ("owner", VObj [("ownerEmail", VStr "a@x.com"); ("ownerName", VStr "A")]);
         ("interests", VArr interests) ].

(** In the examples every [quantity] is a number or absent, so the
    comparison of other values with 1 is never consulted; this instance
    stands in for it. *)
Definition never_consulted : value -> bool := fun _ => false.

(** ** The other routes

    [GET /api/crops/:id] reads with a command the processes above already
    have.  The routes below issue one store command each, with a query or
    an operation of their own; they are given by what that command does to
    the collection. *)

(** [GET /api/crops/:id] *)
Definition getCrop (id : string) : proc :=
  if negb (ObjectId_isValid id) then Respond (Send 400 (error "Invalid crop ID"))
  else
    match ObjectId_new id with
    | None => Respond (Send 500 (error "Failed to fetch crop"))
    | Some oid =>
        Await (FindOne (QId oid)) (fun crop =>
          match crop with
          | None => Respond (Send 404 (error "Crop not found"))
          | Some c => Respond (Send 200 c)
          end)
    end.

(** The condition [{ "owner.ownerEmail": email }]. *)
Definition owner_email_match (email : string) (d : value) : bool :=
  match get_prop d "owner" with
  | VArr l => existsb (elem_matches "ownerEmail" (VStr email)) l
  | VObj fs => elem_matches "ownerEmail" (VStr email) (VObj fs)
  | _ => false
  end.

(** [GET /api/my-crops?email=...]; [email] is the query parameter, absent
    or a string. *)
Definition listMyCrops (email : option string) (s : store) : response * store :=
  match email with
  | None => (Send 400 (error "Email required"), s)
  | Some e =>
      if negb (truthy (VStr e)) then (Send 400 (error "Email required"), s)
      else (Send 200 (VArr (filter (owner_email_match e) s)), s)
  end.

(** [deleteOne(q)]: the first document that matches is removed. *)
Fixpoint deleteOne (q : query) (s : store) : store :=
  match s with
  | [] => []
  | d :: s' => if matches q d then s' else d :: deleteOne q s'
  end.

(** [DELETE /api/crops/:id]: no [try], so a malformed identifier leaves
    the request unanswered. *)
Definition deleteCrop (id : string) (s : store) : response * store :=
  match ObjectId_new id with
  | None => (Unhandled, s)
  | Some oid => (Send 200 success, deleteOne (QId oid) s)
  end.

(** The condition [{ type: t }]. *)
Definition type_match (t : string) (d : value) : bool :=
  mongo_eq (VStr t) (get_prop d "type").

Fixpoint decimal (acc : N) (s : string) : option N :=
  match s with
  | EmptyString => Some acc
  | String c s' =>
      match digit c with
      | Some d => decimal (10 * acc + N.of_nat d)%N s'
      | None => None
      end
  end.

Section ListCrops.

(** The answer of [GET /api/crops] when [limit] is not a string of decimal
    digits whose value is below 2^31, given the crops the query selects:
    what [Number(limit)] is then, and what the driver and the server make
    of a limit that is negative, fractional, huge or not a number, is not
    modelled.  The route is defined for every such answer. *)
Variable limit_other : string -> list value -> response.

(** [GET /api/crops?type=...&limit=...]; both parameters are absent or
    strings.  A limit of 0 is no limit. *)
Definition listCrops (type limit : option string) (s : store) : response * store :=
  let selected :=
    match type with
    | Some t => if truthy (VStr t) then filter (type_match t) s else s
    | None => s
    end in
  match limit with
  | Some l =>
      if truthy (VStr l) then
        match decimal 0%N l with
        | Some n =>
            if (n <? 2147483648)%N then
              (Send 200 (VArr (if (n =? 0)%N then selected
                               else firstn (N.to_nat n) selected)), s)
            else (limit_other l selected, s)
        | None => (limit_other l selected, s)
        end
      else (Send 200 (VArr selected), s)
  | None => (Send 200 (VArr selected), s)
  end.

End ListCrops.

(** ** Vocabulary of the further properties *)

(** The store [s'] is [s] with one document replaced in place. *)
Definition one_replaced (s s' : store) (d d' : value) : Prop :=
  exists before after, s = before ++ d :: after /\ s' = before ++ d' :: after.

(** The identifiers of the collection, in order. *)
Definition ids (s : store) : list value :=
  map (fun d => get_prop d "_id") s.

(** No two documents of the collection answer to the same [ObjectId], as
    the store's index on [_id] has it. *)
Definition unique_ids (s : store) : Prop :=
  forall oid, List.length (filter (has_id oid) s) <= 1.

(** The collection after [updateOne(q, u)], refused or not. *)
Definition after_update (q : query) (u : update) (s : store) : store :=
  match updateOne q u s with
  | Some (_, s') => s'
  | None => s
  end.

(** A crop that the query of [listMyInterests] returns and on which its
    loops throw: [interests] is not an array, or holds a [null]. *)
Definition poisoned (email : string) (crop : value) : bool :=
  interests_match "userEmail" (VStr email) crop
  && negb match get_prop crop "interests" with
          | VArr l => forallb (fun i => negb (nullish i)) l
          | _ => false
          end.

(** A crop whose owner is a document with a string for [ownerEmail]. *)
Definition owner_email_of (crop : value) : option string :=
  match get_prop crop "owner" with
  | VObj fs =>
      match assoc "ownerEmail" fs with
      | Some (VStr e) => Some e
      | _ => None
      end
  | _ => None
  end.

(** The stored interest of crop [C] that [c@x.com] sent. *)
Definition interest_c (status : value) : value :=
  VObj [ ("_id", VOid 2%N);
         ("cropId", VStr crop_id);
         ("userEmail", VStr "c@x.com");
         ("userName", VStr "C");
         ("quantity", VNum 4%Q);
         ("message", VNull);
         ("status", status);
         ("createdAt", VDate 2000%Z) ].

(** A second crop, of another owner. *)
Definition crop_D : value :=
  VObj [ ("_id", VOid 7%N);
         ("name", VStr "Jute");
         ("type", VStr "fibre");
         ("owner", VObj [("ownerEmail", VStr "d@x.com"); ("ownerName", VStr "D")]);
         ("interests", VArr [interest_c (VStr "pending")]) ].

(** A submission that has read the crop and passed its checks: what is
    left of it is the push of its interest and the answer. *)
Definition pending_push (oid : ObjectId) (i : value) : proc :=
  Await (UpdateOne (QId oid) (UPush i)) (fun result =>
    match result with
    | None => Respond (Send 500 (error "Failed to submit interest"))
    | Some _ => Respond (Send 200 i)
    end).

(** The orders in which the store can serve two handlers of two commands
    each. *)
Definition two_by_two : list (list nat) :=
  [ [0; 0; 1; 1]; [0; 1; 0; 1]; [0; 1; 1; 0];
    [1; 0; 0; 1]; [1; 0; 1; 0]; [1; 1; 0; 0] ].

(** ** Vocabulary of the list of a buyer and of the update of a crop *)

(** Follows the specification's words for a record of [listMyInterests],
    [{ id, cropName, ownerName, quantity, message, status }]: the
    identifier, quantity, message and status of the interest, the name of
    its crop and the name of the crop's owner.  The identifier is the
    store's [_id]. *)
Definition spec_record (crop i : value) : value :=
  VObj [ ("_id", get_prop i "_id");
         ("cropName", get_prop crop "name");
         ("ownerName", get_prop (get_prop crop "owner") "ownerName");
         ("quantity", get_prop i "quantity");
         ("message", get_prop i "message");
         ("status", get_prop i "status") ].

(** One such record for each interest of each crop whose [userEmail] is
    the argument. *)
Definition spec_records (email : string) (s : store) : list value :=
  flat_map (fun crop => map (spec_record crop) (filter (sent_by email) (interests_of crop))) s.



Fixpoint distinct (l : list string) : bool :=
  match l with
  | [] => true
  | x :: l' => negb (existsb (String.eqb x) l') && distinct l'
  end.

(** A body that is a document of one or more distinct plain field names,
    none of them [_id]. *)
Definition plain_fields (body : value) : bool :=
  match body with
  | VObj fs =>
      negb (Nat.eqb (List.length fs) 0)
      && forallb (fun kv => plain_name (fst kv) && negb (String.eqb (fst kv) "_id")) fs
      && distinct (map fst fs)
  | _ => false
  end.

(** ** Basic facts *)

Lemma run_respond r s : run (Respond r) s = (r, s).
Proof. reflexivity. Qed.

Lemma run_all_app ps qs s :
  run_all (ps ++ qs) s =
  (fst (run_all ps s) ++ fst (run_all qs (snd (run_all ps s))),
   snd (run_all qs (snd (run_all ps s)))).
Proof.
  revert s; induction ps as [|p ps IH]; intros s; simpl.
  - destruct (run_all qs s); reflexivity.
  - destruct (run p s) as [r s1]. rewrite IH.
    destruct (run_all ps s1) as [rs s2]; simpl.
    destruct (run_all qs s2); reflexivity.
Qed.

(** ** [submitInterest] run alone *)

Section SubmitInterestFacts.

Variable lt : value -> bool.

Lemma submit_invalid env id body s :
  nullish body = false ->
  passes_validation lt body = false ->
  exists msg, run (submitInterest lt env id body) s = (Send 400 (error msg), s).
Proof.
  intros Hb Hv. unfold submitInterest, passes_validation in *. rewrite Hb.
  destruct (truthy (get_prop body "userEmail")); simpl in *;
    [| eexists; reflexivity].
  destruct (truthy (get_prop body "userName")); simpl in *;
    [| eexists; reflexivity].
  destruct (truthy (get_prop body "quantity")); simpl in *;
    [| eexists; reflexivity].
  rewrite Bool.negb_false_iff in Hv. rewrite Hv. eexists; reflexivity.
Qed.

(** The run of a request that passes validation, spelled out on the
    store. *)
Lemma submit_valid env id body s :
  nullish body = false ->
  passes_validation lt body = true ->
  run (submitInterest lt env id body) s =
  match ObjectId_new id with
  | None => (internal, s)
  | Some oid =>
      match findOne (QId oid) s with
      | None => (Send 404 (error "Crop not found"), s)
      | Some crop =>
          let userEmail := get_prop body "userEmail" in
          if strict_eq (get_prop_opt (get_prop crop "owner") "ownerEmail") userEmail
          then (forbidden, s)
          else
            match existingInterest crop userEmail with
            | None => (internal, s)
            | Some existing =>
                if truthy existing then (duplicate, s)
                else
                  let interest :=
                    newInterest env id userEmail (get_prop body "userName")
                      (get_prop body "quantity") (get_prop body "message") in
                  match updateOne (QId oid) (UPush interest) s with
                  | Some (_, s') => (Send 200 interest, s')
                  | None => (internal, s)
                  end
            end
      end
  end.
Proof.
  intros Hb Hv. unfold submitInterest, passes_validation in *. rewrite Hb.
  repeat rewrite Bool.andb_true_iff in Hv. destruct Hv as [[[He Hn] Hq] Hl].
  rewrite He, Hn, Hq. rewrite Bool.negb_true_iff in Hl. rewrite Hl. simpl.
  destruct (ObjectId_new id) as [oid|]; [|reflexivity].
  simpl. destruct (findOne (QId oid) s) as [crop|]; [|reflexivity].
  destruct (strict_eq _ _); [reflexivity|].
  destruct (existingInterest crop _) as [ex|]; [|reflexivity].
  destruct (truthy ex); [reflexivity|].
  simpl. destruct (updateOne _ _ s) as [[r s']|]; reflexivity.
Qed.

End SubmitInterestFacts.

(** ** [updateOne] and [findOne] *)

Lemma updateOne_missing q u s :
  findOne q s = None ->
  updateOne q u s = Some ({| matchedCount := 0; modifiedCount := 0 |}, s).
Proof.
  unfold findOne. induction s as [|d s IH]; simpl; intros H; [reflexivity|].
  destruct (matches q d); [discriminate|]. rewrite (IH H). reflexivity.
Qed.

Lemma updateOne_refused q u s d :
  findOne q s = Some d ->
  apply_update q u d = None ->
  updateOne q u s = None.
Proof.
  unfold findOne. induction s as [|x s IH]; simpl; intros H Ha; [discriminate|].
  destruct (matches q x).
  - injection H as ->. rewrite Ha. reflexivity.
  - rewrite (IH H Ha). reflexivity.
Qed.

Lemma updateOne_applied q u s d d' :
  findOne q s = Some d ->
  apply_update q u d = Some d' ->
  exists r s', updateOne q u s = Some (r, s')
               /\ (matches q d' = true -> findOne q s' = Some d').
Proof.
  unfold findOne. induction s as [|x s IH]; simpl; intros H Ha; [discriminate|].
  destruct (matches q x) eqn:Hm.
  - injection H as ->. rewrite Ha. do 2 eexists. split; [reflexivity|].
    intros Hd. simpl. rewrite Hd. reflexivity.
  - destruct (IH H Ha) as (r & s' & Hu & Hf). rewrite Hu.
    do 2 eexists. split; [reflexivity|].
    intros Hd. simpl. rewrite Hm. auto.
Qed.

(** ** Fields of a document under [assoc_set] and [$push] *)

Lemma assoc_set_same k v fs : assoc k (assoc_set k v fs) = Some v.
Proof.
  induction fs as [|[k' v'] fs IH]; simpl.
  - rewrite String.eqb_refl. reflexivity.
  - destruct (String.eqb k k') eqn:E; simpl; rewrite E; auto.
Qed.

Lemma assoc_set_other k k' v fs :
  k <> k' -> assoc k' (assoc_set k v fs) = assoc k' fs.
Proof.
  intros Hk. induction fs as [|[k0 v0] fs IH]; simpl.
  - destruct (String.eqb k' k) eqn:E; [|reflexivity].
    apply String.eqb_eq in E. congruence.
  - destruct (String.eqb k k0) eqn:E; simpl.
    + apply String.eqb_eq in E. subst k0.
      destruct (String.eqb k' k) eqn:E'; [|reflexivity].
      apply String.eqb_eq in E'. congruence.
    + rewrite IH. reflexivity.
Qed.

Lemma assoc_app_absent k k' v fs :
  assoc k fs = None -> assoc k (fs ++ [(k', v)]) = if String.eqb k k' then Some v else None.
Proof.
  induction fs as [|[k0 v0] fs IH]; simpl; intros H; [reflexivity|].
  destruct (String.eqb k k0); [discriminate|auto].
Qed.

Lemma assoc_app_other k k' v fs :
  k <> k' -> assoc k' (fs ++ [(k, v)]) = assoc k' fs.
Proof.
  intros Hk. induction fs as [|[k0 v0] fs IH]; simpl.
  - destruct (String.eqb k' k) eqn:E; [|reflexivity].
    apply String.eqb_eq in E. congruence.
  - destruct (String.eqb k' k0); auto.
Qed.

Lemma apply_push_other i d d' k :
  apply_push i d = Some d' -> k <> "interests" -> get_prop d' k = get_prop d k.
Proof.
  unfold apply_push. destruct d as [| | | | | | | |fs]; try discriminate.
  intros H Hk.
  destruct (assoc "interests" fs) as [[| | | | | | |l|]|] eqn:E; try discriminate;
    injection H as <-; simpl.
  - rewrite assoc_set_other by congruence. reflexivity.
  - rewrite assoc_app_other by congruence. reflexivity.
Qed.

Lemma apply_push_interests i d d' :
  apply_push i d = Some d' ->
  get_prop d' "interests" = VArr (interests_of d ++ [bson i]).
Proof.
  unfold apply_push, interests_of. destruct d as [| | | | | | | |fs]; try discriminate.
  intros H. simpl.
  destruct (assoc "interests" fs) as [[| | | | | | |l|]|] eqn:E; try discriminate;
    injection H as <-; simpl.
  - rewrite assoc_set_same. reflexivity.
  - rewrite (assoc_app_absent _ _ _ _ E). reflexivity.
Qed.

Lemma apply_push_keeps_id i d d' cid :
  apply_push i d = Some d' -> has_id cid d' = has_id cid d.
Proof.
  intros H. unfold has_id. rewrite (apply_push_other _ _ _ "_id" H); [reflexivity|].
  discriminate.
Qed.

(** ** The lookup [find_by_email] *)

Lemma find_by_email_result email l x :
  truthy email = true ->
  find_by_email email l = Some x ->
  x = VUndef \/ (is_document x = true /\ strict_eq (get_prop x "userEmail") email = true).
Proof.
  intros He. induction l as [|i l IH]; simpl; intros H.
  - injection H as <-. now left.
  - unfold get_prop_strict in H. destruct (nullish i) eqn:Hn; [discriminate|].
    destruct (strict_eq (get_prop i "userEmail") email) eqn:E; [|auto].
    injection H as <-. right. split; [|assumption].
    destruct i; simpl in *; try reflexivity;
      destruct email; simpl in *; discriminate.
  Qed.

Lemma find_by_email_snoc email l x j :
  truthy email = true ->
  find_by_email email l = Some x ->
  truthy x = false ->
  is_document j = true ->
  strict_eq (get_prop j "userEmail") email = true ->
  find_by_email email (l ++ [j]) = Some j.
Proof.
  intros He H Hx Hj Hm. revert H. induction l as [|i l IH]; simpl; intros H.
  - unfold get_prop_strict. destruct j; try discriminate. simpl nullish.
    cbv iota. rewrite Hm. reflexivity.
  - unfold get_prop_strict in *. destruct (nullish i); [discriminate|].
    destruct (strict_eq (get_prop i "userEmail") email) eqn:E; [|auto].
    injection H as <-.
    assert (Hd : is_document i = true).
    { destruct i; simpl in *; try reflexivity; destruct email; simpl in *; discriminate. }
    destruct i; simpl in *; discriminate.
Qed.

(** ** One buyer, one interest: sequential submissions *)

Section Uniqueness.

Variable lt : value -> bool.
Variable id : string.
Variable e : string.


Lemma body_with_email_not_nullish body :
  get_prop body "userEmail" = VStr e -> nullish body = false.
Proof. destruct body; simpl; intros H; try discriminate; reflexivity. Qed.

Lemma submit_after_sent c s oid :
  ObjectId_new id = Some oid ->
  get_prop (snd c) "userEmail" = VStr e ->
  already_sent oid (VStr e) s ->
  exists r, run (handle lt id c) s = (r, s) /\ turned_down lt (snd c) r.
Proof.
  intros Hid He (crop & ex & Hf & Ho & Hx & Ht).
  pose proof (body_with_email_not_nullish _ He) as Hb.
  destruct (passes_validation lt (snd c)) eqn:Hv.
  - exists duplicate. split.
    + unfold handle. rewrite (submit_valid lt _ _ _ _ Hb Hv).
      rewrite Hid, Hf. cbv zeta. rewrite He, Ho, Hx, Ht. reflexivity.
    + split; [eexists; reflexivity | reflexivity].
  - destruct (submit_invalid lt (fst c) id _ s Hb Hv) as [msg Hr].
    exists (Send 400 (error msg)). split; [exact Hr|].
    split; [eexists; reflexivity | intros H; congruence].
Qed.

Lemma submit_outcome c s :
  get_prop (snd c) "userEmail" = VStr e ->
  (accepted (fst (run (handle lt id c) s)) = false /\ snd (run (handle lt id c) s) = s)
  \/ (accepted (fst (run (handle lt id c) s)) = true
      /\ exists oid res,
           ObjectId_new id = Some oid
           /\ updateOne (QId oid) (UPush (interest_of id e c)) s
              = Some (res, snd (run (handle lt id c) s))
           /\ already_sent oid (VStr e) (snd (run (handle lt id c) s))).
Proof.
  intros He. pose proof (body_with_email_not_nullish _ He) as Hb.
  destruct (passes_validation lt (snd c)) eqn:Hv.
  2:{ destruct (submit_invalid lt (fst c) id _ s Hb Hv) as [msg Hr].
      unfold handle. rewrite Hr. left. split; reflexivity. }
  assert (Hte : truthy (VStr e) = true).
  { unfold passes_validation in Hv. rewrite He in Hv.
    destruct (truthy (VStr e)); [reflexivity | discriminate]. }
  unfold handle. rewrite (submit_valid lt _ _ _ _ Hb Hv).
  destruct (ObjectId_new id) as [oid|] eqn:Hid; [|left; split; reflexivity].
  destruct (findOne (QId oid) s) as [crop|] eqn:Hf; [|left; split; reflexivity].
  cbv zeta. rewrite He.
  destruct (strict_eq _ (VStr e)) eqn:Ho; [left; split; reflexivity|].
  destruct (existingInterest crop (VStr e)) as [ex|] eqn:Hx;
    [|left; split; reflexivity].
  destruct (truthy ex) eqn:Ht; [left; split; reflexivity|].
  fold (interest_of id e c).
  destruct (apply_update (QId oid) (UPush (interest_of id e c)) crop) as [crop'|] eqn:Ha.
  2:{ rewrite (updateOne_refused _ _ _ _ Hf Ha). left. split; reflexivity. }
  destruct (updateOne_applied _ _ _ _ _ Hf Ha) as (res & s' & Hu & Hfind).
  rewrite Hu. right. split; [reflexivity|].
  exists oid, res. split; [reflexivity|]. split; [exact Hu|].
  simpl fst; simpl snd. simpl in Ha.
  assert (Hm : matches (QId oid) crop' = true).
  { simpl. rewrite (apply_push_keeps_id _ _ _ oid Ha).
    unfold findOne in Hf. apply List.find_some in Hf. exact (proj2 Hf). }
  exists crop', (bson (interest_of id e c)). split; [auto|]. split.
  { rewrite (apply_push_other _ _ _ "owner" Ha) by discriminate. exact Ho. }
  split; [|reflexivity].
  unfold existingInterest. rewrite (apply_push_interests _ _ _ Ha). simpl nullish.
  cbv iota.
  assert (Hl : find_by_email (VStr e) (interests_of crop) = Some ex
               \/ (interests_of crop = [] /\ ex = VUndef)).
  { unfold existingInterest, interests_of in *.
    destruct (get_prop crop "interests"); simpl in Hx; try discriminate;
      try (right; split; [reflexivity | congruence]).
    now left. }
  destruct Hl as [Hl | [Hl ->]].
  - apply (find_by_email_snoc _ _ ex); auto.
    simpl. apply String.eqb_refl.
  - rewrite Hl. simpl. rewrite String.eqb_refl. reflexivity.
Qed.

(** Once the interest is there, every later submission of the pair is
    turned down and the store stays as it is. *)
Lemma later_submissions calls s oid :
  ObjectId_new id = Some oid ->
  Forall (fun c => get_prop (snd c) "userEmail" = VStr e) calls ->
  already_sent oid (VStr e) s ->
  snd (run_all (map (handle lt id) calls) s) = s
  /\ Forall2 (fun c r => turned_down lt (snd c) r) calls
             (fst (run_all (map (handle lt id) calls) s))
  /\ filter accepted (fst (run_all (map (handle lt id) calls) s)) = [].
Proof.
  intros Hid Hall Hs. induction Hall as [|c calls Hc Hall IH]; simpl.
  - repeat split. constructor.
  - destruct (submit_after_sent c s oid Hid Hc Hs) as (r & Hr & Ht).
    rewrite Hr. destruct IH as (IH1 & IH2 & IH3).
    destruct (run_all (map (handle lt id) calls) s) as [rs s'] eqn:E. simpl in *.
    split; [assumption|]. split; [constructor; assumption|].
    destruct Ht as [[msg ->] _]. simpl. assumption.
Qed.

Lemma at_most_one_accepted calls s :
  Forall (fun c => get_prop (snd c) "userEmail" = VStr e) calls ->
  List.length (filter accepted (fst (run_all (map (handle lt id) calls) s))) <= 1
  /\ (snd (run_all (map (handle lt id) calls) s) = s
      \/ exists c oid res,
           In c calls /\ ObjectId_new id = Some oid
           /\ updateOne (QId oid) (UPush (interest_of id e c)) s
              = Some (res, snd (run_all (map (handle lt id) calls) s))).
Proof.
  intros Hall. induction Hall as [|c calls Hc Hall IH]; simpl.
  - split; [lia | now left].
  - destruct (submit_outcome c s Hc) as [[Hr Hs] | [Hr (oid & res & Hid & Hu & Hsent)]].
    + destruct (run (handle lt id c) s) as [r s1]. simpl in Hr, Hs. subst s1.
      destruct IH as [IH1 IH2].
      destruct (run_all (map (handle lt id) calls) s) as [rs s'] eqn:E. simpl in *.
      rewrite Hr. split; [assumption|].
      destruct IH2 as [-> | (c' & oid & res & Hin & Hid & Hu)]; [now left|].
      right. exists c', oid, res. auto.
    + destruct (run (handle lt id c) s) as [r s1]. simpl in Hr, Hu, Hsent.
      destruct (later_submissions calls s1 oid Hid Hall Hsent) as (L1 & _ & L3).
      destruct (run_all (map (handle lt id) calls) s1) as [rs s'] eqn:E. simpl in *.
      rewrite Hr, L3. subst s'. split; [simpl; lia|].
      right. exists c, oid, res. auto.
Qed.

End Uniqueness.

(** ** [submitInterest]: what the store holds afterwards *)

Lemma no_interest_from_existing email crop :
  no_interest_from email crop = true ->
  existingInterest crop email = Some VUndef
  /\ forall i, exists crop', apply_push i crop = Some crop'.
Proof.
  unfold no_interest_from, existingInterest, apply_push, get_prop.
  destruct crop as [| | | | | | | |fs]; try discriminate.
  destruct (assoc "interests" fs) as [[| | | | | | |l|]|]; try discriminate.
  - simpl. destruct (find_by_email email l) as [[| | | | | | | |]|]; try discriminate.
    intros _. split; [reflexivity | intros i; eexists; reflexivity].
  - intros _. split; [reflexivity | intros i; eexists; reflexivity].
Qed.

Lemma lt_one_below lt q : (q < 1)%Q -> lt_one lt (VNum q) = true.
Proof.
  intros H. simpl. destruct (Qle_bool 1 q) eqn:E; [|reflexivity].
  apply Qle_bool_iff in E. exfalso. exact (Qlt_not_le _ _ H E).
Qed.

Lemma from_one_on lt q :
  (1 <= q)%Q -> truthy (VNum q) = true /\ lt_one lt (VNum q) = false.
Proof.
  intros H. simpl. split.
  - destruct (Qeq_bool q 0) eqn:E; [|reflexivity].
    apply Qeq_bool_iff in E. rewrite E in H. exfalso.
    apply (Qlt_not_le 0 1); [reflexivity | exact H].
  - apply (proj2 (Qle_bool_iff 1 q)) in H. rewrite H. reflexivity.
Qed.

(** ** [updateInterestStatus] run alone *)

Lemma update_status_run cropId interestId body s cid iid :
  ObjectId_new cropId = Some cid ->
  ObjectId_new interestId = Some iid ->
  nullish body = false ->
  run (updateInterestStatus cropId interestId body) s =
  match updateOne (QIdInterest cid iid) (USetStatus (get_prop body "status")) s with
  | Some (_, s') => (Send 200 success, s')
  | None => (Send 500 (error "Failed to update interest status"), s)
  end.
Proof.
  intros Hc Hi Hb. unfold updateInterestStatus, ObjectId_isValid.
  rewrite Hb, Hc, Hi. simpl.
  destruct (updateOne _ _ s) as [[r s']|]; reflexivity.
Qed.

Lemma find_index_found {A : Type} (p : A -> bool) l n :
  find_index p l = Some n ->
  exists x, nth_error l n = Some x /\ p x = true.
Proof.
  revert n. induction l as [|y l IH]; simpl; intros n H; [discriminate|].
  destruct (p y) eqn:E.
  - injection H as <-. exists y. auto.
  - destruct (find_index p l) as [m|]; [|discriminate]. injection H as <-.
    simpl. apply IH. reflexivity.
Qed.

Lemma find_index_replace {A : Type} (p : A -> bool) l n x :
  find_index p l = Some n -> p x = true ->
  find_index p (replace_nth n x l) = Some n
  /\ nth_error (replace_nth n x l) n = Some x
  /\ existsb p (replace_nth n x l) = true.
Proof.
  revert n. induction l as [|y l IH]; simpl; intros n H Hx; [discriminate|].
  destruct (p y) eqn:E.
  - injection H as <-. simpl. rewrite Hx. auto.
  - destruct (find_index p l) as [m|]; [|discriminate]. injection H as <-.
    destruct (IH m eq_refl Hx) as (I1 & I2 & I3).
    simpl. rewrite E, I1, I3. auto.
Qed.

Lemma set_status_document v ifs :
  exists ifs', set_path ["status"] v (VObj ifs) = Some (VObj ifs')
               /\ assoc "status" ifs' = Some v
               /\ forall k, k <> "status" -> assoc k ifs' = assoc k ifs.
Proof.
  simpl. destruct (assoc "status" ifs) eqn:E; simpl.
  - eexists. split; [reflexivity|]. split; [apply assoc_set_same|].
    intros k Hk. apply assoc_set_other. congruence.
  - eexists. split; [reflexivity|]. split.
    + rewrite (assoc_app_absent _ _ _ _ E). reflexivity.
    + intros k Hk. apply assoc_app_other. congruence.
Qed.

(** The update of the status of the interest the request addresses. *)
Lemma set_status_applied cid iid st s i :
  target_interest cid iid s = Some i ->
  exists r s' i',
    updateOne (QIdInterest cid iid) (USetStatus st) s = Some (r, s')
    /\ target_interest cid iid s' = Some i'
    /\ get_prop i' "status" = bson st
    /\ forall k, k <> "status" -> get_prop i' k = get_prop i k.
Proof.
  unfold target_interest. intros H.
  destruct (findOne (QIdInterest cid iid) s) as [crop|] eqn:Hf; [|discriminate].
  destruct (position (QIdInterest cid iid) crop) as [n|] eqn:Hp; [|discriminate].
  assert (Hm : matches (QIdInterest cid iid) crop = true).
  { unfold findOne in Hf. apply List.find_some in Hf. exact (proj2 Hf). }
  unfold position, interests_of in *.
  destruct crop as [| | | | | | | |fs]; try discriminate.
  simpl get_prop in *.
  destruct (assoc "interests" fs) as [[| | | | | | |l|]|] eqn:Ei; try discriminate.
  destruct (find_index_found _ _ _ Hp) as (x & Hx & Hpx).
  rewrite Hx in H. injection H as ->.
  destruct i as [| | | | | | | |ifs]; try discriminate.
  destruct (set_status_document (bson st) ifs) as (ifs' & Hs & Hst & Hother).
  set (crop' := VObj (assoc_set "interests" (VArr (replace_nth n (VObj ifs') l)) fs)).
  assert (Ha : apply_update (QIdInterest cid iid) (USetStatus st) (VObj fs) = Some crop').
  { unfold apply_update, apply_set_status, position. simpl get_prop.
    rewrite Ei, Hp, Hx, Hs. reflexivity. }
  assert (Hpx' : elem_matches "_id" (VOid iid) (VObj ifs') = true).
  { simpl in *. rewrite Hother by discriminate. exact Hpx. }
  destruct (find_index_replace _ _ _ (VObj ifs') Hp Hpx') as (R1 & R2 & R3).
  assert (Hm' : matches (QIdInterest cid iid) crop' = true).
  { simpl in *. apply Bool.andb_true_iff in Hm. destruct Hm as [Hid _].
    apply Bool.andb_true_iff. split.
    - unfold has_id in *. simpl. rewrite assoc_set_other by discriminate. exact Hid.
    - unfold interests_match. simpl. rewrite assoc_set_same. exact R3. }
  destruct (updateOne_applied _ _ _ _ _ Hf Ha) as (r & s' & Hu & Hfind).
  exists r, s', (VObj ifs'). split; [exact Hu|].
  rewrite (Hfind Hm'). unfold crop'. simpl get_prop. rewrite assoc_set_same.
  rewrite R1, R2. split; [reflexivity|]. split.
  - simpl. rewrite Hst. reflexivity.
  - intros k Hk. simpl. rewrite (Hother k Hk). reflexivity.
Qed.

(** ** [listMyInterests]: the query and the two loops *)

Lemma sent_by_matches e i :
  sent_by e i = true -> elem_matches "userEmail" (VStr e) i = true.
Proof.
  unfold sent_by, elem_matches, get_prop.
  destruct i as [| | | | | | | |ifs]; try discriminate.
  destruct (assoc "userEmail" ifs) as [u|]; [|discriminate].
  destruct u; try discriminate. unfold mongo_eq. simpl. intros H. rewrite H. reflexivity.
Qed.

Lemma pushed_documents e crop l :
  forallb is_document l = true ->
  pushed (VStr e) crop l = Some (map (projection crop) (filter (sent_by e) l)).
Proof.
  induction l as [|i l IH]; simpl; intros H; [reflexivity|].
  apply Bool.andb_true_iff in H. destruct H as [Hi Hl].
  rewrite (IH Hl). destruct i; try discriminate.
  unfold get_prop_strict. simpl nullish. cbv iota. unfold sent_by.
  destruct (strict_eq _ _); reflexivity.
Qed.

Lemma unmatched_sends_nothing e l :
  existsb (elem_matches "userEmail" (VStr e)) l = false ->
  filter (sent_by e) l = [].
Proof.
  induction l as [|i l IH]; simpl; intros H; [reflexivity|].
  apply Bool.orb_false_iff in H. destruct H as [Hi Hl].
  destruct (sent_by e i) eqn:E.
  - apply sent_by_matches in E. congruence.
  - auto.
Qed.

Lemma records_of_store e s :
  forallb well_formed_crop s = true ->
  all_records (VStr e) (findAll (QInterestEmail e) s) = Some (spec_my_interests e s).
Proof.
  unfold findAll. induction s as [|crop s IH]; simpl; intros H; [reflexivity|].
  apply Bool.andb_true_iff in H. destruct H as [Hc Hs].
  specialize (IH Hs). unfold well_formed_crop in Hc.
  unfold interests_match, interests_of.
  destruct (get_prop crop "interests") as [| | | | | | |l|] eqn:Ei; try discriminate;
    try (simpl; exact IH).
  destruct (existsb (elem_matches "userEmail" (VStr e)) l) eqn:Em.
  - simpl. unfold crop_records. rewrite Ei, (pushed_documents _ _ _ Hc), IH.
    reflexivity.
  - rewrite (unmatched_sends_nothing _ _ Em). simpl. exact IH.
Qed.

Lemma spec_my_interests_skip e before crop after :
  interests_of crop = [] ->
  spec_my_interests e (before ++ crop :: after) = spec_my_interests e (before ++ after).
Proof.
  intros H. unfold spec_my_interests. rewrite !flat_map_app. simpl.
  rewrite H. reflexivity.
Qed.

Lemma findAll_skip e before crop after :
  without_interests crop = true ->
  findAll (QInterestEmail e) (before ++ crop :: after)
  = findAll (QInterestEmail e) (before ++ after).
Proof.
  intros H. unfold findAll. rewrite !filter_app. simpl.
  unfold interests_match. unfold without_interests in H.
  destruct (get_prop crop "interests") as [| | | | | | |[|x l]|];
    try discriminate; reflexivity.
Qed.

(** ** [$set] of a request body *)

Lemma split_dots_cons k : exists h t, split_dots k = h :: t.
Proof.
  induction k as [|c k (h & t & IH)]; simpl.
  - eauto.
  - rewrite IH. destruct (Ascii.eqb c "."%char); eauto.
Qed.

Lemma split_dots_single f k : split_dots f = [k] -> k = f.
Proof.
  revert k. induction f as [|c f IH]; simpl; intros k H.
  - congruence.
  - destruct (Ascii.eqb c "."%char).
    + destruct (split_dots_cons f) as (h & t & E). rewrite E in H. discriminate.
    + destruct (split_dots f) as [|h t] eqn:E.
      * destruct (split_dots_cons f) as (h & t & E'). congruence.
      * injection H as <- ->. rewrite (IH h eq_refl). reflexivity.
Qed.




Lemma value_eqb_oid x o : value_eqb x (VOid o) = true -> x = VOid o.
Proof.
  destruct x; simpl; try discriminate. intros H. apply N.eqb_eq in H. congruence.
Qed.


(** A body of one plain field other than [_id] is never refused. *)
Lemma apply_set_single f v fs cid :
  plain_name f = true -> f <> "_id" -> has_id cid (VObj fs) = true ->
  exists fs', apply_set (VObj [(f, v)]) (VObj fs) = Some (VObj fs')
              /\ assoc f fs' = Some (bson v).
Proof.
  unfold plain_name. intros Hp Hf Hid.
  destruct (split_dots f) as [|k [|k' t]] eqn:Es; try discriminate.
  pose proof (split_dots_single _ _ Es) as ->.
  apply Bool.negb_true_iff in Hp.
  assert (Hs : exists fs', set_path [f] (bson v) (VObj fs) = Some (VObj fs')
                           /\ assoc f fs' = Some (bson v)
                           /\ assoc "_id" fs' = assoc "_id" fs).
  { simpl. rewrite Hp. destruct (assoc f fs) eqn:E; simpl.
    - eexists. split; [reflexivity|]. split; [apply assoc_set_same|].
      apply assoc_set_other. exact Hf.
    - eexists. split; [reflexivity|]. split.
      + rewrite (assoc_app_absent _ _ _ _ E), String.eqb_refl. reflexivity.
      + apply assoc_app_other. exact Hf. }
  destruct Hs as (fs' & Hs & Ha & Hi).
  exists fs'. split; [|exact Ha].
  unfold apply_set.
  change (conflict (map (fun kv => split_dots (fst kv)) [(f, v)])) with false.
  change (set_fields [(f, v)] (VObj fs))
    with (match set_path (split_dots f) (bson v) (VObj fs) with
          | Some d' => Some d'
          | None => None
          end).
  rewrite Es, Hs. unfold has_id in Hid. simpl get_prop in *. rewrite Hi.
  destruct (assoc "_id" fs) as [[| | | | |o| | |]|]; try discriminate.
  simpl. rewrite N.eqb_refl. reflexivity.
Qed.

Lemma crop_update_run id body s oid :
  ObjectId_new id = Some oid ->
  run (putCrop id body) s =
    match updateOne (QId oid) (USet body) s with
    | Some (_, s') => (Send 200 success, s')
    | None => (Unhandled, s)
    end
  /\ run (patchCrop id body) s =
    match updateOne (QId oid) (USet body) s with
    | Some (r, s') => (Send 200 (result_value r), s')
    | None => (Send 500 (error "Failed to update crop"), s)
    end.
Proof.
  intros H. unfold putCrop, patchCrop. rewrite H. simpl.
  destruct (updateOne _ _ s) as [[r s']|]; split; reflexivity.
Qed.

(** * The interest lifecycle *)

(** C1. The existence check and the append of [submitInterest] are not one
    conditional operation.  The handler first reads the crop and then, as a
    second command, pushes the new interest without any condition; two
    identical submissions in flight together, each of which reads before
    the other writes, are both answered with their interest, and the crop
    ends with two interests of the same [userEmail]. *)
Theorem submitInterest_check_then_push_races :
  let request env :=
    submitInterest never_consulted env crop_id (submission "b@x.com" "B" 2) in
  exists i1 i2,
    (exists k, fst (step (request first_request) [crop_C])
               = Await (UpdateOne (QId crop_oid) (UPush i1)) k)
    /\ interleave [0; 1; 0; 1] [request first_request; request second_request] [crop_C]
       = ([Respond (Send 200 i1); Respond (Send 200 i2)],
          [crop_C_with [bson i1; bson i2]])
    /\ get_prop i1 "userEmail" = VStr "b@x.com"
    /\ get_prop i2 "userEmail" = VStr "b@x.com".
Proof.
  intros request.
  exists (newInterest first_request crop_id (VStr "b@x.com") (VStr "B") (VNum 2) VUndef),
         (newInterest second_request crop_id (VStr "b@x.com") (VStr "B") (VNum 2) VUndef).
  split; [|split; [|split]].
  - eexists. reflexivity.
  - vm_compute. reflexivity.
  - reflexivity.
  - reflexivity.
Qed.

(** C2, as stated, fails: after a stored submission, a submission of the
    same pair whose [quantity] is 0 is answered with the validation error,
    not with the duplicate response. *)
Lemma submitInterest_later_call_validation_error :
  let request env q :=
    submitInterest never_consulted env crop_id (submission "b@x.com" "B" q) in
  exists i,
    fst (run_all [request first_request 2%Q; request second_request 0%Q] [crop_C])
    = [Send 200 i; Send 400 (error "Quantity must be at least 1")]
    /\ Send 400 (error "Quantity must be at least 1") <> duplicate.
Proof.
  intros request.
  exists (newInterest first_request crop_id (VStr "b@x.com") (VStr "B") (VNum 2) VUndef).
  split; [vm_compute; reflexivity | discriminate].
Qed.

(** C2, amended.  For every sequence of [submitInterest] calls with the
    same crop identifier and the same [userEmail], a string: at most one
    call is answered with a new interest; the store ends either as it
    began or with the interest of one of the calls pushed onto the crop;
    and every call after one that stored its interest leaves the store as
    it is and is turned down with status 400, which is the duplicate
    response when the call passes the validation of its other inputs. *)
Theorem submitInterest_at_most_one_stored
    (lt : value -> bool) (id e : string) (calls : list call) (s : store) :
  Forall (fun c => get_prop (snd c) "userEmail" = VStr e) calls ->
  let final := snd (run_all (map (handle lt id) calls) s) in
  List.length (filter accepted (fst (run_all (map (handle lt id) calls) s))) <= 1
  /\ (final = s
      \/ exists c oid res,
           In c calls /\ ObjectId_new id = Some oid
           /\ updateOne (QId oid) (UPush (interest_of id e c)) s = Some (res, final))
  /\ (forall before c after,
        calls = before ++ c :: after ->
        let s0 := snd (run_all (map (handle lt id) before) s) in
        accepted (fst (run (handle lt id c) s0)) = true ->
        let s1 := snd (run (handle lt id c) s0) in
        snd (run_all (map (handle lt id) after) s1) = s1
        /\ Forall2 (fun c' r' => turned_down lt (snd c') r') after
                   (fst (run_all (map (handle lt id) after) s1))).
Proof.
  intros Hall final.
  destruct (at_most_one_accepted lt id e calls s Hall) as [H1 H2].
  split; [exact H1|]. split; [exact H2|].
  intros before c after -> s0 Hacc s1.
  apply Forall_app in Hall. destruct Hall as [_ Hall].
  inversion Hall as [|c' l' Hc Hafter]; subst.
  destruct (submit_outcome lt id e c s0 Hc) as [[Hr _] | [_ (oid & res & Hid & _ & Hsent)]].
  - congruence.
  - destruct (later_submissions lt id e after _ oid Hid Hafter Hsent) as (L1 & L2 & _).
    split; assumption.
Qed.

Lemma submitInterest_at_most_one_stored_witness :
  let calls := [ (first_request, submission "b@x.com" "B" 2);
                 (second_request, submission "b@x.com" "B" 3) ] in
  List.length
    (filter accepted (fst (run_all (map (handle never_consulted crop_id) calls) [crop_C])))
  <= 1.
Proof.
  intros calls.
  apply (submitInterest_at_most_one_stored never_consulted crop_id "b@x.com" calls [crop_C]).
  repeat constructor.
Defined.

(** C3, as stated, fails: a call on an accepted interest is answered with
    success and overwrites the stored status. *)
Lemma updateInterestStatus_overwrites_accepted :
  run (updateInterestStatus crop_id interest_id (VObj [("status", VStr "rejected")]))
      [crop_C_with [interest_b (VStr "accepted")]]
  = (Send 200 success, [crop_C_with [interest_b (VStr "rejected")]]).
Proof. vm_compute. reflexivity. Qed.

(** C3, amended.  [updateInterestStatus] on an existing interest does not
    look at its current status: whether that is pending, accepted or
    rejected, the call is answered with success and the stored status
    becomes the requested one, the other fields of the interest staying as
    they are. *)
Theorem updateInterestStatus_sets_any_current_status
    (cropId interestId : string) (body : value) (s : store)
    (cid iid : ObjectId) (i : value) :
  ObjectId_new cropId = Some cid ->
  ObjectId_new interestId = Some iid ->
  nullish body = false ->
  target_interest cid iid s = Some i ->
  exists s' i',
    run (updateInterestStatus cropId interestId body) s = (Send 200 success, s')
    /\ target_interest cid iid s' = Some i'
    /\ get_prop i' "status" = bson (get_prop body "status")
    /\ forall k, k <> "status" -> get_prop i' k = get_prop i k.
Proof.
  intros Hc Hi Hb Ht.
  destruct (set_status_applied cid iid (get_prop body "status") s i Ht)
    as (r & s' & i' & Hu & Ht' & Hs & Hk).
  exists s', i'. rewrite (update_status_run _ _ _ _ _ _ Hc Hi Hb), Hu. auto.
Qed.

Lemma updateInterestStatus_sets_any_current_status_witness :
  exists s' i',
    run (updateInterestStatus crop_id interest_id (VObj [("status", VStr "rejected")]))
        [crop_C_with [interest_b (VStr "accepted")]]
    = (Send 200 success, s')
    /\ target_interest crop_oid 1%N s' = Some i'
    /\ get_prop i' "status" = VStr "rejected".
Proof.
  destruct (updateInterestStatus_sets_any_current_status
              crop_id interest_id (VObj [("status", VStr "rejected")])
              [crop_C_with [interest_b (VStr "accepted")]]
              crop_oid 1%N (interest_b (VStr "accepted"))
              eq_refl eq_refl eq_refl eq_refl)
    as (s' & i' & Hr & Ht & Hs & _).
  exists s', i'. auto.
Defined.

(** C4.  When no crop with the given identifier holds an interest with the
    given identifier, [updateInterestStatus] is answered with success, not
    with a not-found error, and the store stays as it is. *)
Theorem updateInterestStatus_missing_target_succeeds
    (cropId interestId : string) (body : value) (s : store) (cid iid : ObjectId) :
  ObjectId_new cropId = Some cid ->
  ObjectId_new interestId = Some iid ->
  nullish body = false ->
  findOne (QIdInterest cid iid) s = None ->
  run (updateInterestStatus cropId interestId body) s = (Send 200 success, s).
Proof.
  intros Hc Hi Hb Hf.
  rewrite (update_status_run _ _ _ _ _ _ Hc Hi Hb), (updateOne_missing _ _ _ Hf).
  reflexivity.
Qed.

Lemma updateInterestStatus_missing_target_succeeds_witness :
  run (updateInterestStatus crop_id interest_id (VObj [("status", VStr "accepted")])) []
  = (Send 200 success, [])
  /\ run (updateInterestStatus crop_id interest_id (VObj [("status", VStr "accepted")]))
         [crop_C]
     = (Send 200 success, [crop_C]).
Proof.
  split.
  - apply (updateInterestStatus_missing_target_succeeds
             crop_id interest_id _ [] crop_oid 1%N); reflexivity.
  - apply (updateInterestStatus_missing_target_succeeds
             crop_id interest_id _ [crop_C] crop_oid 1%N); reflexivity.
Defined.

(** C5.  [updateInterestStatus] writes whatever status the request
    carries: for every value [st], a request with [status: st] on the
    pending interest of crop [C] is answered with success and the stored
    status becomes [st] ([null] when the request has no status). *)
Theorem updateInterestStatus_writes_any_status (st : value) :
  run (updateInterestStatus crop_id interest_id (VObj [("status", st)]))
      [crop_C_with [interest_b (VStr "pending")]]
  = (Send 200 success, [crop_C_with [interest_b (bson st)]])
  /\ run (updateInterestStatus crop_id interest_id (VObj []))
         [crop_C_with [interest_b (VStr "pending")]]
     = (Send 200 success, [crop_C_with [interest_b VNull]]).
Proof.
  split.
  - rewrite (update_status_run crop_id interest_id (VObj [("status", st)]) _
               crop_oid 1%N eq_refl eq_refl eq_refl).
    reflexivity.
  - vm_compute. reflexivity.
Qed.

(** C6, as stated, fails: the owner of crop [C] submitting with
    [quantity] 0 is answered with the validation error, not with the
    owner's refusal. *)
Lemma submitInterest_owner_with_invalid_quantity :
  findOne (QId crop_oid) [crop_C] = Some crop_C
  /\ get_prop_opt (get_prop crop_C "owner") "ownerEmail" = VStr "a@x.com"
  /\ run (submitInterest never_consulted first_request crop_id (submission "a@x.com" "A" 0))
         [crop_C]
     = (Send 400 (error "Quantity must be at least 1"), [crop_C])
  /\ Send 400 (error "Quantity must be at least 1") <> forbidden.
Proof.
  split; [reflexivity|]. split; [reflexivity|].
  split; [vm_compute; reflexivity | discriminate].
Qed.

(** C6, amended.  For every existing crop, [submitInterest] called with a
    [userEmail] equal to the crop's [owner.ownerEmail] stores no interest;
    it is answered with the owner's refusal (status 403) when [userName]
    and [quantity] pass validation, and with a validation error (status
    400) when they do not. *)
Theorem submitInterest_owner_excluded
    (lt : value -> bool) (env : environment) (id : string) (body : value)
    (s : store) (oid : ObjectId) (crop : value) (e : string) :
  ObjectId_new id = Some oid ->
  findOne (QId oid) s = Some crop ->
  get_prop_opt (get_prop crop "owner") "ownerEmail" = VStr e ->
  get_prop body "userEmail" = VStr e ->
  snd (run (submitInterest lt env id body) s) = s
  /\ (passes_validation lt body = true ->
      fst (run (submitInterest lt env id body) s) = forbidden)
  /\ (passes_validation lt body = false ->
      exists msg, fst (run (submitInterest lt env id body) s) = Send 400 (error msg)).
Proof.
  intros Hid Hf Ho He.
  pose proof (body_with_email_not_nullish e _ He) as Hb.
  destruct (passes_validation lt body) eqn:Hv.
  - rewrite (submit_valid lt _ _ _ _ Hb Hv), Hid, Hf. cbv zeta.
    rewrite Ho, He. simpl strict_eq. rewrite String.eqb_refl.
    split; [reflexivity|]. split; [reflexivity | discriminate].
  - destruct (submit_invalid lt env id _ s Hb Hv) as [msg Hr]. rewrite Hr.
    split; [reflexivity|]. split; [discriminate | intros _; exists msg; reflexivity].
Qed.

Lemma submitInterest_owner_excluded_witness :
  run (submitInterest never_consulted first_request crop_id (submission "a@x.com" "A" 5))
      [crop_C]
  = (forbidden, [crop_C]).
Proof.
  destruct (submitInterest_owner_excluded never_consulted first_request crop_id
              (submission "a@x.com" "A" 5) [crop_C] crop_oid crop_C "a@x.com"
              eq_refl eq_refl eq_refl eq_refl) as (Hs & Hr & _).
  rewrite (surjective_pairing (run _ _)), Hs, (Hr eq_refl). reflexivity.
Defined.

(** C7, as stated, fails: [quantity] need not be an integer; 3/2 is
    accepted and stored. *)
Lemma submitInterest_accepts_fraction :
  exists i,
    run (submitInterest never_consulted first_request crop_id
           (submission "b@x.com" "B" (3 # 2)))
        [crop_C]
    = (Send 200 i, [crop_C_with [bson i]])
    /\ get_prop (bson i) "quantity" = VNum (3 # 2).
Proof.
  exists (newInterest first_request crop_id (VStr "b@x.com") (VStr "B") (VNum (3 # 2)) VUndef).
  split; [vm_compute; reflexivity | reflexivity].
Qed.

(** C7, amended.  [submitInterest] requires [quantity] to be at least 1
    and does not require it to be an integer.  A request whose [quantity]
    is absent, or a number below 1 (zero and the negative numbers among
    them), is answered with a validation error and the store stays as it
    is.  A request whose [quantity] is a number from 1 on (1 among them),
    with the other inputs valid (user present, crop found, user not the
    owner, no interest from the user on the crop yet), is answered with
    the new interest, which is stored at the end of the crop's interests
    with status pending. *)
Theorem submitInterest_quantity_boundary
    (lt : value -> bool) (env : environment) (id : string) (body : value) (s : store) :
  nullish body = false ->
  (get_prop body "quantity" = VUndef ->
   exists msg, run (submitInterest lt env id body) s = (Send 400 (error msg), s))
  /\ (forall q, get_prop body "quantity" = VNum q -> (q < 1)%Q ->
      exists msg, run (submitInterest lt env id body) s = (Send 400 (error msg), s))
  /\ (forall q oid crop,
        get_prop body "quantity" = VNum q -> (1 <= q)%Q ->
        truthy (get_prop body "userEmail") = true ->
        truthy (get_prop body "userName") = true ->
        ObjectId_new id = Some oid ->
        findOne (QId oid) s = Some crop ->
        strict_eq (get_prop_opt (get_prop crop "owner") "ownerEmail")
                  (get_prop body "userEmail") = false ->
        no_interest_from (get_prop body "userEmail") crop = true ->
        let interest :=
          newInterest env id (get_prop body "userEmail") (get_prop body "userName")
            (VNum q) (get_prop body "message") in
        exists s' crop',
          run (submitInterest lt env id body) s = (Send 200 interest, s')
          /\ findOne (QId oid) s' = Some crop'
          /\ get_prop crop' "interests" = VArr (interests_of crop ++ [bson interest])
          /\ get_prop (bson interest) "status" = VStr "pending").
Proof.
  intros Hb. split; [|split].
  - intros Hq. apply (submit_invalid lt env id body s Hb).
    unfold passes_validation. rewrite Hq. simpl.
    rewrite Bool.andb_false_r. reflexivity.
  - intros q Hq Hlt. apply (submit_invalid lt env id body s Hb).
    unfold passes_validation. rewrite Hq, (lt_one_below lt q Hlt). simpl.
    apply Bool.andb_false_r.
  - intros q oid crop Hq Hle He Hn Hid Hf Ho Hfresh interest.
    destruct (from_one_on lt q Hle) as [Ht Hl].
    assert (Hv : passes_validation lt body = true).
    { unfold passes_validation. rewrite Hq, He, Hn, Ht, Hl. reflexivity. }
    destruct (no_interest_from_existing _ _ Hfresh) as [Hx Hpush].
    destruct (Hpush interest) as [crop' Ha].
    destruct (updateOne_applied (QId oid) (UPush interest) s crop crop' Hf Ha)
      as (res & s' & Hu & Hfind).
    exists s', crop'.
    rewrite (submit_valid lt _ _ _ _ Hb Hv), Hid, Hf. cbv zeta.
    rewrite Ho, Hx, Hq. simpl truthy. cbv iota. fold interest. rewrite Hu.
    split; [reflexivity|]. split; [|split].
    + apply Hfind. simpl. rewrite (apply_push_keeps_id _ _ _ oid Ha).
      unfold findOne in Hf. apply List.find_some in Hf. exact (proj2 Hf).
    + exact (apply_push_interests _ _ _ Ha).
    + reflexivity.
Qed.

Lemma submitInterest_quantity_boundary_witness :
  (exists msg,
     run (submitInterest never_consulted first_request crop_id (submission "b@x.com" "B" 0))
         [crop_C]
     = (Send 400 (error msg), [crop_C]))
  /\ (exists i s' crop',
        run (submitInterest never_consulted first_request crop_id
               (submission "b@x.com" "B" 1))
            [crop_C]
        = (Send 200 i, s')
        /\ findOne (QId crop_oid) s' = Some crop'
        /\ get_prop crop' "interests" = VArr [bson i]
        /\ get_prop (bson i) "status" = VStr "pending").
Proof.
  split.
  - apply (proj1 (proj2 (submitInterest_quantity_boundary never_consulted first_request
                           crop_id (submission "b@x.com" "B" 0) [crop_C] eq_refl))
             0%Q); reflexivity.
  - destruct (proj2 (proj2 (submitInterest_quantity_boundary never_consulted first_request
                              crop_id (submission "b@x.com" "B" 1) [crop_C] eq_refl))
                1%Q crop_oid crop_C eq_refl (Qle_refl 1) eq_refl eq_refl eq_refl eq_refl
                eq_refl eq_refl)
      as (s' & crop' & H).
    eexists; exists s', crop'. exact H.
Defined.

(** C8.  [submitInterest] with a malformed crop identifier and an
    otherwise valid body is answered with the internal error (status 500):
    the identifier is not checked before [new ObjectId] throws on it. *)
Theorem submitInterest_malformed_id_internal_error
    (lt : value -> bool) (env : environment) (id : string) (body : value) (s : store) :
  ObjectId_isValid id = false ->
  nullish body = false ->
  passes_validation lt body = true ->
  run (submitInterest lt env id body) s
  = (Send 500 (error "Failed to submit interest"), s).
Proof.
  intros Hid Hb Hv. rewrite (submit_valid lt _ _ _ _ Hb Hv).
  unfold ObjectId_isValid in Hid.
  destruct (ObjectId_new id); [discriminate | reflexivity].
Qed.

Lemma submitInterest_malformed_id_internal_error_witness :
  run (submitInterest never_consulted first_request "abc" (submission "b@x.com" "B" 2))
      [crop_C]
  = (Send 500 (error "Failed to submit interest"), [crop_C]).
Proof.
  apply (submitInterest_malformed_id_internal_error never_consulted first_request "abc"
           (submission "b@x.com" "B" 2) [crop_C]); reflexivity.
Defined.

(** * Further properties of the routes *)

(** ** What [updateOne] leaves alone *)

Lemma updateOne_frame q u s r s' :
  updateOne q u s = Some (r, s') ->
  (findOne q s = None /\ s' = s)
  \/ exists d d' before after,
       findOne q s = Some d /\ apply_update q u d = Some d'
       /\ s = before ++ d :: after /\ s' = before ++ d' :: after
       /\ forallb (fun x => negb (matches q x)) before = true.
Proof.
  unfold findOne. revert r s'. induction s as [|x s IH]; simpl; intros r s' H.
  - injection H as <- <-. now left.
  - destruct (matches q x) eqn:Hm.
    + destruct (apply_update q u x) as [x'|] eqn:Ha; [|discriminate].
      injection H as <- <-. right. exists x, x', [], s. repeat split; auto.
    + destruct (updateOne q u s) as [[r0 s0]|] eqn:Hu; [|discriminate].
      injection H as <- <-.
      destruct (IH _ _ eq_refl) as [[Hn ->] | (d & d' & b & a & Hf & Ha & -> & -> & Hb)].
      * now left.
      * right. exists d, d', (x :: b), a. repeat split; auto.
        simpl. rewrite Hm. exact Hb.
Qed.

Lemma findOne_after_prefix q before d after :
  forallb (fun x => negb (matches q x)) before = true ->
  matches q d = true ->
  findOne q (before ++ d :: after) = Some d.
Proof.
  unfold findOne. induction before as [|x b IH]; simpl; intros Hb Hd.
  - rewrite Hd. reflexivity.
  - apply Bool.andb_true_iff in Hb. destruct Hb as [Hx Hb].
    apply Bool.negb_true_iff in Hx. rewrite Hx. auto.
Qed.

Lemma findOne_matches q s d : findOne q s = Some d -> In d s /\ matches q d = true.
Proof. unfold findOne. apply List.find_some. Qed.

Lemma findOne_none q s :
  findOne q s = None <-> forallb (fun x => negb (matches q x)) s = true.
Proof.
  unfold findOne. induction s as [|x s IH]; simpl; [tauto|].
  destruct (matches q x); simpl; [split; discriminate | exact IH].
Qed.

(** ** [submitInterest]: what a submission changes *)

Lemma find_by_email_unmatched email l x :
  truthy email = true ->
  find_by_email email l = Some x ->
  truthy x = false ->
  Forall (fun i => strict_eq (get_prop i "userEmail") email = false) l.
Proof.
  intros He. induction l as [|i l IH]; simpl; intros H Hx; [constructor|].
  unfold get_prop_strict in H. destruct (nullish i) eqn:Hn; [discriminate|].
  destruct (strict_eq (get_prop i "userEmail") email) eqn:E.
  - injection H as <-. exfalso.
    destruct i; simpl in *; try discriminate;
      destruct email; simpl in *; discriminate.
  - constructor; auto.
Qed.

Lemma accepted_submission lt env id body s :
  accepted (fst (run (submitInterest lt env id body) s)) = true ->
  nullish body = false /\ passes_validation lt body = true.
Proof.
  intros H. destruct (nullish body) eqn:Hb.
  - unfold submitInterest in H. rewrite Hb in H. discriminate.
  - split; [reflexivity|].
    destruct (passes_validation lt body) eqn:Hv; [reflexivity|].
    destruct (submit_invalid lt env id body s Hb Hv) as [msg Hr].
    rewrite Hr in H. discriminate.
Qed.

(** X1.  A submission either is not answered with an interest and leaves
    the collection as it is, or is answered with the new interest and
    replaces exactly one document, the first crop with the identifier:
    that crop gets the interest at the end of its [interests] and keeps
    every other field; no other document changes. *)
Theorem submitInterest_changes_one_crop
    (lt : value -> bool) (env : environment) (id : string) (body : value) (s : store) :
  let interest :=
    newInterest env id (get_prop body "userEmail") (get_prop body "userName")
      (get_prop body "quantity") (get_prop body "message") in
  (accepted (fst (run (submitInterest lt env id body) s)) = false
   /\ snd (run (submitInterest lt env id body) s) = s)
  \/ (exists oid crop crop',
        ObjectId_new id = Some oid
        /\ findOne (QId oid) s = Some crop
        /\ fst (run (submitInterest lt env id body) s) = Send 200 interest
        /\ one_replaced s (snd (run (submitInterest lt env id body) s)) crop crop'
        /\ get_prop crop' "interests" = VArr (interests_of crop ++ [bson interest])
        /\ forall k, k <> "interests" -> get_prop crop' k = get_prop crop k).
Proof.
  intros interest.
  destruct (nullish body) eqn:Hb.
  { left. unfold submitInterest. rewrite Hb. split; reflexivity. }
  destruct (passes_validation lt body) eqn:Hv.
  2:{ destruct (submit_invalid lt env id body s Hb Hv) as [msg Hr]. rewrite Hr.
      left. split; reflexivity. }
  rewrite (submit_valid lt _ _ _ _ Hb Hv).
  destruct (ObjectId_new id) as [oid|] eqn:Hid; [|left; split; reflexivity].
  destruct (findOne (QId oid) s) as [crop|] eqn:Hf; [|left; split; reflexivity].
  cbv zeta. destruct (strict_eq _ _); [left; split; reflexivity|].
  destruct (existingInterest crop _) as [ex|]; [|left; split; reflexivity].
  destruct (truthy ex); [left; split; reflexivity|].
  fold interest.
  destruct (updateOne (QId oid) (UPush interest) s) as [[r s']|] eqn:Hu;
    [|left; split; reflexivity].
  right.
  destruct (updateOne_frame _ _ _ _ _ Hu)
    as [[Hn _] | (d & d' & b & a & Hf' & Ha & Hs & Hs' & _)]; [congruence|].
  assert (d = crop) by congruence. subst d. simpl in Ha.
  exists oid, crop, d'.
  split; [reflexivity|]. split; [exact Hf|]. split; [reflexivity|].
  split; [exists b, a; simpl; auto|].
  split; [exact (apply_push_interests _ _ _ Ha)|].
  intros k Hk. exact (apply_push_other _ _ _ k Ha Hk).
Qed.

Lemma submitInterest_changes_one_crop_witness :
  exists crop',
    one_replaced
      [crop_D; crop_C]
      (snd (run (submitInterest never_consulted first_request crop_id
                   (submission "b@x.com" "B" 2)) [crop_D; crop_C]))
      crop_C crop'
    /\ get_prop crop' "name" = VStr "Rice".
Proof.
  destruct (submitInterest_changes_one_crop never_consulted first_request crop_id
              (submission "b@x.com" "B" 2) [crop_D; crop_C])
    as [[H _] | (oid & crop & crop' & Hid & Hf & _ & Hr & _ & Hk)].
  - vm_compute in H. discriminate.
  - assert (oid = crop_oid) by (vm_compute in Hid; injection Hid as <-; reflexivity).
    subst oid.
    assert (crop = crop_C) by (vm_compute in Hf; injection Hf as <-; reflexivity).
    subst crop.
    exists crop'. split; [exact Hr|].
    rewrite (Hk "name"); [reflexivity | discriminate].
Defined.

(** X2.  An interest is never stored for the crop's owner, nor for a
    buyer the crop already has an interest from: when a submission is
    answered with its interest, its [userEmail] is not [===] the crop's
    [owner.ownerEmail] and not [===] the [userEmail] of any interest the
    crop held. *)
Theorem submitInterest_never_owner_nor_twice
    (lt : value -> bool) (env : environment) (id : string) (body : value)
    (s : store) (oid : ObjectId) (crop : value) :
  ObjectId_new id = Some oid ->
  findOne (QId oid) s = Some crop ->
  accepted (fst (run (submitInterest lt env id body) s)) = true ->
  strict_eq (get_prop_opt (get_prop crop "owner") "ownerEmail")
            (get_prop body "userEmail") = false
  /\ Forall (fun i => strict_eq (get_prop i "userEmail") (get_prop body "userEmail") = false)
            (interests_of crop).
Proof.
  intros Hid Hf Hacc.
  destruct (accepted_submission _ _ _ _ _ Hacc) as [Hb Hv].
  assert (He : truthy (get_prop body "userEmail") = true).
  { unfold passes_validation in Hv.
    destruct (truthy (get_prop body "userEmail")); [reflexivity | discriminate]. }
  rewrite (submit_valid lt _ _ _ _ Hb Hv), Hid, Hf in Hacc. cbv zeta in Hacc.
  destruct (strict_eq _ _) eqn:Ho; [discriminate|]. split; [reflexivity|].
  destruct (existingInterest crop _) as [ex|] eqn:Hx; [|discriminate].
  destruct (truthy ex) eqn:Ht; [discriminate|].
  unfold existingInterest, interests_of in *.
  destruct (get_prop crop "interests"); simpl in Hx; try discriminate;
    try constructor.
  exact (find_by_email_unmatched _ _ _ He Hx Ht).
Qed.

Lemma submitInterest_never_owner_nor_twice_witness :
  strict_eq (get_prop_opt (get_prop crop_D "owner") "ownerEmail") (VStr "b@x.com") = false
  /\ Forall (fun i => strict_eq (get_prop i "userEmail") (VStr "b@x.com") = false)
            (interests_of crop_D).
Proof.
  apply (submitInterest_never_owner_nor_twice never_consulted first_request
           "000000000000000000000007" (submission "b@x.com" "B" 2) [crop_D] 7%N crop_D);
    reflexivity.
Defined.

(** X3.  A submission never creates a crop: with valid inputs and a
    well-formed identifier that no document of the collection has, it is
    answered 404 and the collection stays as it is. *)
Theorem submitInterest_unknown_crop
    (lt : value -> bool) (env : environment) (id : string) (body : value)
    (s : store) (oid : ObjectId) :
  nullish body = false ->
  passes_validation lt body = true ->
  ObjectId_new id = Some oid ->
  forallb (fun d => negb (has_id oid d)) s = true ->
  run (submitInterest lt env id body) s = (Send 404 (error "Crop not found"), s).
Proof.
  intros Hb Hv Hid Hs. rewrite (submit_valid lt _ _ _ _ Hb Hv), Hid.
  rewrite (proj2 (findOne_none (QId oid) s) Hs). reflexivity.
Qed.

Lemma submitInterest_unknown_crop_witness :
  run (submitInterest never_consulted first_request crop_id (submission "b@x.com" "B" 2))
      [crop_D]
  = (Send 404 (error "Crop not found"), [crop_D]).
Proof.
  apply (submitInterest_unknown_crop never_consulted first_request crop_id
           (submission "b@x.com" "B" 2) [crop_D] crop_oid); reflexivity.
Defined.

(** ** [updateInterestStatus]: what an update changes *)

Lemma assoc_set_twice k v w fs : assoc_set k v (assoc_set k w fs) = assoc_set k v fs.
Proof.
  induction fs as [|[k' v'] fs IH]; simpl.
  - rewrite String.eqb_refl. reflexivity.
  - destruct (String.eqb k k') eqn:E; simpl; rewrite E; [reflexivity|].
    rewrite IH. reflexivity.
Qed.

Lemma assoc_set_app_absent k v w fs :
  assoc k fs = None -> assoc_set k v (fs ++ [(k, w)]) = fs ++ [(k, v)].
Proof.
  induction fs as [|[k' v'] fs IH]; simpl; intros H.
  - rewrite String.eqb_refl. reflexivity.
  - destruct (String.eqb k k'); [discriminate|]. rewrite (IH H). reflexivity.
Qed.

Lemma replace_nth_twice {A : Type} n (x y : A) l :
  replace_nth n x (replace_nth n y l) = replace_nth n x l.
Proof.
  revert n. induction l as [|z l IH]; intros [|n]; simpl; try reflexivity.
  rewrite IH. reflexivity.
Qed.

Lemma set_status_again v w ifs ifs1 :
  set_path ["status"] w (VObj ifs) = Some (VObj ifs1) ->
  set_path ["status"] v (VObj ifs1) = set_path ["status"] v (VObj ifs).
Proof.
  simpl. destruct (assoc "status" ifs) eqn:E; simpl; intros H; injection H as <-.
  - rewrite assoc_set_same. simpl. rewrite assoc_set_twice. reflexivity.
  - rewrite (assoc_app_absent _ _ _ _ E). simpl.
    rewrite (assoc_set_app_absent _ _ _ _ E). reflexivity.
Qed.

(** The shape of a status update that the store applies. *)
Lemma set_status_shape pos st d d' :
  apply_set_status pos st d = Some d' ->
  exists fs l n ifs ifs',
    d = VObj fs /\ pos = Some n
    /\ assoc "interests" fs = Some (VArr l)
    /\ nth_error l n = Some (VObj ifs)
    /\ set_path ["status"] (bson st) (VObj ifs) = Some (VObj ifs')
    /\ d' = VObj (assoc_set "interests" (VArr (replace_nth n (VObj ifs') l)) fs).
Proof.
  unfold apply_set_status. destruct d as [| | | | | | | |fs]; try discriminate.
  destruct pos as [n|]; [|discriminate].
  destruct (assoc "interests" fs) as [[| | | | | | |l|]|] eqn:Ei; try discriminate.
  destruct (nth_error l n) as [e|] eqn:En; [|discriminate].
  destruct e as [| | | | | | |l0|ifs]; try discriminate.
  destruct (set_status_document (bson st) ifs) as (ifs' & Hs & _).
  rewrite Hs. simpl. intros H. injection H as <-.
  exists fs, l, n, ifs, ifs'. repeat split; auto.
Qed.

Lemma update_status_store cropId interestId body s :
  snd (run (updateInterestStatus cropId interestId body) s) =
  match nullish body, ObjectId_new cropId, ObjectId_new interestId with
  | false, Some cid, Some iid =>
      after_update (QIdInterest cid iid) (USetStatus (get_prop body "status")) s
  | _, _, _ => s
  end.
Proof.
  unfold updateInterestStatus, ObjectId_isValid, after_update.
  destruct (nullish body); [reflexivity|].
  destruct (ObjectId_new cropId) as [cid|]; [|reflexivity].
  destruct (ObjectId_new interestId) as [iid|]; [|reflexivity].
  simpl. destruct (updateOne _ _ s) as [[r s']|]; reflexivity.
Qed.

(** X4.  A status update changes at most the status of one interest: the
    collection stays as it is, or one crop is replaced in place, keeping
    every field but [interests]; of its interests, one is replaced in
    place, taking the requested status and keeping its other fields. *)
Theorem updateInterestStatus_changes_one_status
    (cropId interestId : string) (body : value) (s : store) :
  let s' := snd (run (updateInterestStatus cropId interestId body) s) in
  s' = s
  \/ exists crop crop' l n i i',
       one_replaced s s' crop crop'
       /\ (forall k, k <> "interests" -> get_prop crop' k = get_prop crop k)
       /\ get_prop crop "interests" = VArr l
       /\ get_prop crop' "interests" = VArr (replace_nth n i' l)
       /\ nth_error l n = Some i
       /\ get_prop i' "status" = bson (get_prop body "status")
       /\ (forall k, k <> "status" -> get_prop i' k = get_prop i k).
Proof.
  intros s'. unfold s'. rewrite update_status_store.
  destruct (nullish body); [now left|].
  destruct (ObjectId_new cropId) as [cid|]; [|now left].
  destruct (ObjectId_new interestId) as [iid|]; [|now left].
  unfold after_update.
  destruct (updateOne _ _ s) as [[r s1]|] eqn:Hu; [|now left].
  destruct (updateOne_frame _ _ _ _ _ Hu)
    as [[_ ->] | (d & d' & b & a & _ & Ha & Hs & Hs' & _)]; [now left|].
  right. simpl in Ha.
  destruct (set_status_shape _ _ _ _ Ha)
    as (fs & l & n & ifs & ifs' & -> & _ & Hi & Hn & Hset & ->).
  destruct (set_status_document (bson (get_prop body "status")) ifs)
    as (ifs2 & Hset2 & Hst & Hother).
  assert (ifs2 = ifs') by congruence. subst ifs2.
  exists (VObj fs), (VObj (assoc_set "interests" (VArr (replace_nth n (VObj ifs') l)) fs)),
         l, n, (VObj ifs), (VObj ifs').
  split; [exists b, a; auto|].
  split; [intros k Hk; simpl; rewrite assoc_set_other by congruence; reflexivity|].
  split; [simpl; rewrite Hi; reflexivity|].
  split; [simpl; rewrite assoc_set_same; reflexivity|].
  split; [exact Hn|].
  split; [simpl; rewrite Hst; reflexivity|].
  intros k Hk. simpl. rewrite (Hother k Hk). reflexivity.
Qed.

Lemma updateInterestStatus_changes_one_status_witness :
  exists crop crop' i',
    one_replaced
      [crop_D; crop_C_with [interest_b (VStr "pending"); interest_c (VStr "pending")]]
      (snd (run (updateInterestStatus crop_id "000000000000000000000002"
                   (VObj [("status", VStr "accepted")]))
                [crop_D; crop_C_with [interest_b (VStr "pending");
                                      interest_c (VStr "pending")]]))
      crop crop'
    /\ get_prop crop' "interests" = VArr [interest_b (VStr "pending"); i'].
Proof.
  destruct (updateInterestStatus_changes_one_status crop_id "000000000000000000000002"
              (VObj [("status", VStr "accepted")])
              [crop_D; crop_C_with [interest_b (VStr "pending"); interest_c (VStr "pending")]])
    as [H | _].
  - vm_compute in H. discriminate.
  - exists (crop_C_with [interest_b (VStr "pending"); interest_c (VStr "pending")]),
           (crop_C_with [interest_b (VStr "pending"); interest_c (VStr "accepted")]),
           (interest_c (VStr "accepted")).
    split; [exists [crop_D], []; split; reflexivity | reflexivity].
Defined.

Lemma set_status_then_again cid iid st1 st2 d d1 :
  matches (QIdInterest cid iid) d = true ->
  apply_update (QIdInterest cid iid) (USetStatus st1) d = Some d1 ->
  matches (QIdInterest cid iid) d1 = true
  /\ apply_update (QIdInterest cid iid) (USetStatus st2) d1
     = apply_update (QIdInterest cid iid) (USetStatus st2) d.
Proof.
  intros Hm Ha. simpl in Ha.
  destruct (set_status_shape _ _ _ _ Ha)
    as (fs & l & n & ifs & ifs1 & -> & Hp & Hi & Hn & Hset & ->).
  unfold position in Hp. simpl get_prop in Hp. rewrite Hi in Hp.
  destruct (find_index_found _ _ _ Hp) as (x & Hx & Hpx).
  assert (x = VObj ifs) by congruence. subst x.
  destruct (set_status_document (bson st1) ifs) as (ifs' & Hs' & _ & Hother).
  assert (ifs' = ifs1) by congruence. subst ifs'.
  assert (Hpx1 : elem_matches "_id" (VOid iid) (VObj ifs1) = true).
  { simpl in *. rewrite Hother by discriminate. exact Hpx. }
  destruct (find_index_replace _ _ _ (VObj ifs1) Hp Hpx1) as (R1 & R2 & R3).
  split.
  - simpl in *. apply Bool.andb_true_iff in Hm. destruct Hm as [Hid _].
    apply Bool.andb_true_iff. split.
    + unfold has_id in *. simpl. rewrite assoc_set_other by discriminate. exact Hid.
    + unfold interests_match. simpl. rewrite assoc_set_same. exact R3.
  - unfold apply_update, apply_set_status, position. simpl get_prop.
    rewrite assoc_set_same, Hi, R1, Hp, R2, Hn.
    rewrite (set_status_again _ _ _ _ Hset).
    destruct (set_path ["status"] (bson st2) (VObj ifs)) as [e2|]; [|reflexivity].
    simpl. rewrite replace_nth_twice, assoc_set_twice. reflexivity.
Qed.

Lemma after_update_hit q u d s :
  matches q d = true ->
  after_update q u (d :: s)
  = match apply_update q u d with Some d' => d' :: s | None => d :: s end.
Proof.
  intros H. unfold after_update. simpl. rewrite H.
  destruct (apply_update q u d); reflexivity.
Qed.

Lemma after_update_miss q u d s :
  matches q d = false ->
  after_update q u (d :: s) = d :: after_update q u s.
Proof.
  intros H. unfold after_update. simpl. rewrite H.
  destruct (updateOne q u s) as [[r s']|]; reflexivity.
Qed.

Lemma after_update_status_twice cid iid st1 st2 s :
  after_update (QIdInterest cid iid) (USetStatus st2)
    (after_update (QIdInterest cid iid) (USetStatus st1) s)
  = after_update (QIdInterest cid iid) (USetStatus st2) s.
Proof.
  induction s as [|d s IH]; [reflexivity|].
  destruct (matches (QIdInterest cid iid) d) eqn:Hm.
  - rewrite (after_update_hit _ (USetStatus st1) _ _ Hm).
    destruct (apply_update (QIdInterest cid iid) (USetStatus st1) d) as [d1|] eqn:Ha;
      [|reflexivity].
    destruct (set_status_then_again cid iid st1 st2 d d1 Hm Ha) as [Hm1 Ha1].
    rewrite (after_update_hit _ _ _ _ Hm1), (after_update_hit _ _ _ _ Hm), Ha1.
    destruct (apply_update _ (USetStatus st2) d) as [d2|] eqn:Ha2; [reflexivity|].
    exfalso. simpl in Ha, Ha2.
    destruct (set_status_shape _ _ _ _ Ha)
      as (fs & l & n & ifs & ifs1 & -> & Hp & Hi & Hn & _ & _).
    destruct (set_status_document (bson st2) ifs) as (ifs2 & Hs2 & _).
    unfold apply_set_status in Ha2. rewrite Hp, Hi, Hn, Hs2 in Ha2. discriminate.
  - rewrite !(after_update_miss _ _ _ _ Hm). rewrite IH. reflexivity.
Qed.

(** X5.  The last status update wins: two updates of the same interest one
    after the other, the second with a body, leave the collection exactly
    as the second one alone does; in particular a repeated update changes
    nothing more. *)
Theorem updateInterestStatus_last_write_wins
    (cropId interestId : string) (body1 body2 : value) (s : store) :
  nullish body2 = false ->
  snd (run (updateInterestStatus cropId interestId body2)
           (snd (run (updateInterestStatus cropId interestId body1) s)))
  = snd (run (updateInterestStatus cropId interestId body2) s).
Proof.
  intros H2. rewrite !update_status_store, H2.
  destruct (ObjectId_new cropId) as [cid|];
    destruct (ObjectId_new interestId) as [iid|];
    destruct (nullish body1); try reflexivity.
  apply after_update_status_twice.
Qed.

Lemma updateInterestStatus_last_write_wins_witness :
  snd (run (updateInterestStatus crop_id interest_id (VObj [("status", VStr "rejected")]))
           (snd (run (updateInterestStatus crop_id interest_id
                        (VObj [("status", VStr "accepted")]))
                     [crop_C_with [interest_b (VStr "pending")]])))
  = [crop_C_with [interest_b (VStr "rejected")]].
Proof.
  rewrite (updateInterestStatus_last_write_wins crop_id interest_id
             (VObj [("status", VStr "accepted")]) (VObj [("status", VStr "rejected")])
             [crop_C_with [interest_b (VStr "pending")]] eq_refl).
  reflexivity.
Defined.

(** ** [listMyInterests] on any collection *)

Lemma pushed_exact e crop l :
  pushed (VStr e) crop l =
  if forallb (fun i => negb (nullish i)) l
  then Some (map (projection crop) (filter (sent_by e) l))
  else None.
Proof.
  induction l as [|i l IH]; [reflexivity|].
  simpl. unfold get_prop_strict. destruct (nullish i) eqn:Hn; [reflexivity|].
  rewrite IH. simpl. destruct (forallb _ l); [|reflexivity].
  unfold sent_by. destruct (strict_eq _ _); reflexivity.
Qed.

Lemma unqueried_sends_nothing e crop :
  interests_match "userEmail" (VStr e) crop = false ->
  filter (sent_by e) (interests_of crop) = [].
Proof.
  unfold interests_match, interests_of.
  destruct (get_prop crop "interests"); try reflexivity.
  apply unmatched_sends_nothing.
Qed.

Lemma all_records_exact e s :
  all_records (VStr e) (findAll (QInterestEmail e) s) =
  if existsb (poisoned e) s then None else Some (spec_my_interests e s).
Proof.
  unfold findAll. induction s as [|crop s IH]; [reflexivity|].
  simpl. unfold poisoned at 1.
  destruct (interests_match "userEmail" (VStr e) crop) eqn:Hq.
  - simpl. rewrite IH. unfold crop_records, interests_of.
    destruct (get_prop crop "interests") as [| | | | | | |l|]; try reflexivity.
    rewrite pushed_exact. destruct (forallb _ l); [|reflexivity].
    simpl. destruct (existsb (poisoned e) s); reflexivity.
  - simpl. rewrite IH, (unqueried_sends_nothing _ _ Hq).
    destruct (existsb (poisoned e) s); reflexivity.
Qed.

(** X6.  On any collection, [listMyInterests] with a non-empty email
    either answers exactly one projection for each interest whose
    [userEmail] is the email, or fails with status 500; it fails exactly
    when some crop that its query selects has an [interests] field that is
    not an array or that holds a [null], and then no record of any crop
    is returned. *)
Theorem listMyInterests_all_or_nothing (e : string) (s : store) :
  e <> "" ->
  run (listMyInterests (Some e)) s =
  (if existsb (poisoned e) s
   then Send 500 (error "Failed to fetch interests")
   else Send 200 (VArr (spec_my_interests e s)),
   s).
Proof.
  intros He. unfold listMyInterests. simpl truthy.
  apply String.eqb_neq in He. rewrite He. simpl.
  rewrite all_records_exact. destruct (existsb (poisoned e) s); reflexivity.
Qed.

Lemma listMyInterests_all_or_nothing_witness :
  run (listMyInterests (Some "c@x.com"))
      [crop_D; crop_C_with [VNull; interest_c (VStr "pending")]]
  = (Send 500 (error "Failed to fetch interests"),
     [crop_D; crop_C_with [VNull; interest_c (VStr "pending")]]).
Proof.
  rewrite (listMyInterests_all_or_nothing "c@x.com"
             [crop_D; crop_C_with [VNull; interest_c (VStr "pending")]]
             ltac:(discriminate)).
  reflexivity.
Defined.

(** ** [getCrop] *)

Lemma getCrop_run id s oid :
  ObjectId_new id = Some oid ->
  run (getCrop id) s =
  (match findOne (QId oid) s with
   | Some c => Send 200 c
   | None => Send 404 (error "Crop not found")
   end, s).
Proof.
  intros H. unfold getCrop, ObjectId_isValid. rewrite H. simpl.
  destruct (findOne (QId oid) s); reflexivity.
Qed.

Lemma accepted_submission_shape lt env id body s :
  accepted (fst (run (submitInterest lt env id body) s)) = true ->
  exists oid crop crop' before after,
    ObjectId_new id = Some oid
    /\ s = before ++ crop :: after
    /\ snd (run (submitInterest lt env id body) s) = before ++ crop' :: after
    /\ forallb (fun x => negb (matches (QId oid) x)) before = true
    /\ matches (QId oid) crop = true
    /\ apply_push (newInterest env id (get_prop body "userEmail")
                     (get_prop body "userName") (get_prop body "quantity")
                     (get_prop body "message")) crop = Some crop'.
Proof.
  intros Hacc. destruct (accepted_submission _ _ _ _ _ Hacc) as [Hb Hv].
  rewrite (submit_valid lt _ _ _ _ Hb Hv) in *.
  destruct (ObjectId_new id) as [oid|]; [|discriminate].
  destruct (findOne (QId oid) s) as [crop|] eqn:Hf; [|discriminate].
  cbv zeta in *. destruct (strict_eq _ _); [discriminate|].
  destruct (existingInterest crop _) as [ex|]; [|discriminate].
  destruct (truthy ex); [discriminate|].
  destruct (updateOne _ _ s) as [[r s']|] eqn:Hu; [|discriminate].
  destruct (updateOne_frame _ _ _ _ _ Hu)
    as [[Hn _] | (d & d' & b & a & Hf' & Ha & Hs & Hs' & Hb')]; [congruence|].
  assert (d = crop) by congruence. subst d.
  exists oid, crop, d', b, a. repeat split; auto.
  exact (proj2 (findOne_matches _ _ _ Hf)).
Qed.

(** X8.  What is submitted can be read back: after a submission that is
    answered with its interest, [getCrop] with the same identifier
    answers with the crop, whose [interests] are the earlier ones followed
    by the stored interest and whose other fields are as before. *)
Theorem getCrop_after_submitInterest
    (lt : value -> bool) (env : environment) (id : string) (body : value) (s : store) :
  accepted (fst (run (submitInterest lt env id body) s)) = true ->
  exists oid crop crop',
    ObjectId_new id = Some oid
    /\ findOne (QId oid) s = Some crop
    /\ fst (run (getCrop id) (snd (run (submitInterest lt env id body) s))) = Send 200 crop'
    /\ get_prop crop' "interests"
       = VArr (interests_of crop
               ++ [bson (newInterest env id (get_prop body "userEmail")
                           (get_prop body "userName") (get_prop body "quantity")
                           (get_prop body "message"))])
    /\ forall k, k <> "interests" -> get_prop crop' k = get_prop crop k.
Proof.
  intros Hacc.
  destruct (accepted_submission_shape _ _ _ _ _ Hacc)
    as (oid & crop & crop' & b & a & Hid & Hs & Hs' & Hb & Hm & Ha).
  exists oid, crop, crop'. split; [exact Hid|]. split.
  { rewrite Hs. exact (findOne_after_prefix _ _ _ _ Hb Hm). }
  split.
  { rewrite (getCrop_run _ _ _ Hid), Hs'.
    rewrite (findOne_after_prefix (QId oid) b crop' a Hb); [reflexivity|].
    simpl in *. rewrite (apply_push_keeps_id _ _ _ oid Ha). exact Hm. }
  split; [exact (apply_push_interests _ _ _ Ha)|].
  intros k Hk. exact (apply_push_other _ _ _ k Ha Hk).
Qed.

Lemma getCrop_after_submitInterest_witness :
  exists crop',
    fst (run (getCrop crop_id)
             (snd (run (submitInterest never_consulted first_request crop_id
                          (submission "b@x.com" "B" 2)) [crop_D; crop_C])))
    = Send 200 crop'
    /\ get_prop crop' "name" = VStr "Rice".
Proof.
  destruct (getCrop_after_submitInterest never_consulted first_request crop_id
              (submission "b@x.com" "B" 2) [crop_D; crop_C] eq_refl)
    as (oid & crop & crop' & Hid & Hf & Hg & _ & Hk).
  assert (oid = crop_oid) by (vm_compute in Hid; injection Hid as <-; reflexivity).
  subst oid.
  assert (crop = crop_C) by (vm_compute in Hf; injection Hf as <-; reflexivity).
  subst crop.
  exists crop'. split; [exact Hg|].
  rewrite (Hk "name"); [reflexivity | discriminate].
Defined.

(** ** [deleteCrop] *)

Lemma deleteOne_missing q s : findOne q s = None -> deleteOne q s = s.
Proof.
  unfold findOne. induction s as [|d s IH]; simpl; intros H; [reflexivity|].
  destruct (matches q d); [discriminate|]. rewrite (IH H). reflexivity.
Qed.

Lemma deleteOne_found q s d :
  findOne q s = Some d ->
  exists before after,
    s = before ++ d :: after /\ deleteOne q s = before ++ after
    /\ forallb (fun x => negb (matches q x)) before = true.
Proof.
  unfold findOne. induction s as [|x s IH]; simpl; intros H; [discriminate|].
  destruct (matches q x) eqn:Hm.
  - injection H as ->. exists [], s. auto.
  - destruct (IH H) as (b & a & -> & Hd & Hb). exists (x :: b), a.
    simpl. rewrite Hd, Hm. auto.
Qed.

Lemma filter_none {A : Type} (p : A -> bool) l :
  forallb (fun x => negb (p x)) l = true -> filter p l = [].
Proof.
  induction l as [|x l IH]; simpl; intros H; [reflexivity|].
  apply Bool.andb_true_iff in H. destruct H as [Hx Hl].
  apply Bool.negb_true_iff in Hx. rewrite Hx. auto.
Qed.

Lemma has_id_injective oid oid' d :
  has_id oid d = true -> oid' <> oid -> has_id oid' d = false.
Proof.
  unfold has_id. destruct (get_prop d "_id"); try discriminate.
  intros H Hne. apply N.eqb_eq in H. subst. apply N.eqb_neq. congruence.
Qed.

Lemma findOne_app_miss q before after :
  forallb (fun x => negb (matches q x)) before = true ->
  findOne q (before ++ after) = findOne q after.
Proof.
  unfold findOne. induction before as [|x b IH]; simpl; intros H; [reflexivity|].
  apply Bool.andb_true_iff in H. destruct H as [Hx Hb].
  apply Bool.negb_true_iff in Hx. rewrite Hx. auto.
Qed.

Lemma findOne_skip q before d after :
  matches q d = false ->
  findOne q (before ++ d :: after) = findOne q (before ++ after).
Proof.
  intros Hd. unfold findOne. induction before as [|x b IH]; simpl.
  - rewrite Hd. reflexivity.
  - destruct (matches q x); auto.
Qed.

(** X9.  In a collection whose identifiers are unique, a deleted crop is
    gone and nothing else is: [deleteCrop] answers with success, [getCrop]
    with the same identifier then answers 404, and every other identifier
    finds the document it found before. *)
Theorem getCrop_after_deleteCrop (id : string) (s : store) (oid : ObjectId) :
  unique_ids s ->
  ObjectId_new id = Some oid ->
  fst (deleteCrop id s) = Send 200 success
  /\ fst (run (getCrop id) (snd (deleteCrop id s))) = Send 404 (error "Crop not found")
  /\ forall oid', oid' <> oid ->
       findOne (QId oid') (snd (deleteCrop id s)) = findOne (QId oid') s.
Proof.
  intros Hu Hid. unfold deleteCrop. rewrite Hid. simpl fst; simpl snd.
  split; [reflexivity|]. rewrite (getCrop_run _ _ _ Hid). simpl fst.
  destruct (findOne (QId oid) s) as [d|] eqn:Hf.
  - destruct (deleteOne_found _ _ _ Hf) as (b & a & Hs & Hd & Hb). rewrite Hd.
    pose proof (proj2 (findOne_matches _ _ _ Hf)) as Hm. simpl in Hm.
    assert (Ha : forallb (fun x => negb (has_id oid x)) a = true).
    { specialize (Hu oid). rewrite Hs, filter_app in Hu. simpl in Hu.
      rewrite Hm, (filter_none (has_id oid) b Hb) in Hu. simpl in Hu.
      destruct (filter (has_id oid) a) as [|y l] eqn:Hfa; [|simpl in Hu; lia].
      clear -Hfa. induction a as [|x a IH]; [reflexivity|].
      simpl in *. destruct (has_id oid x); [discriminate|]. simpl. auto. }
    split.
    + rewrite (findOne_app_miss _ _ _ Hb), (proj2 (findOne_none (QId oid) a) Ha).
      reflexivity.
    + intros oid' Hne. rewrite Hs. symmetry. apply findOne_skip.
      simpl. exact (has_id_injective _ _ _ Hm Hne).
  - rewrite (deleteOne_missing _ _ Hf), Hf. split; reflexivity.
Qed.

Lemma getCrop_after_deleteCrop_witness :
  fst (run (getCrop crop_id) (snd (deleteCrop crop_id [crop_D; crop_C])))
  = Send 404 (error "Crop not found")
  /\ findOne (QId 7%N) (snd (deleteCrop crop_id [crop_D; crop_C])) = Some crop_D.
Proof.
  assert (Hu : unique_ids [crop_D; crop_C]).
  { intros oid. cbn [filter].
    change (has_id oid crop_D) with (N.eqb 7 oid).
    change (has_id oid crop_C) with (N.eqb crop_oid oid).
    destruct (N.eqb 7 oid) eqn:E1; destruct (N.eqb crop_oid oid) eqn:E2;
      cbn [List.length]; try lia.
    apply N.eqb_eq in E1. apply N.eqb_eq in E2. subst oid. discriminate. }
  destruct (getCrop_after_deleteCrop crop_id [crop_D; crop_C] crop_oid Hu eq_refl)
    as (_ & H404 & Hother).
  split; [exact H404|].
  rewrite (Hother 7%N); [reflexivity | discriminate].
Defined.

(** X10.  Deleting a crop deletes its interests: on a collection whose
    crops have an absent [interests] field or an array of interest
    documents, after [deleteCrop] of an existing crop [listMyInterests]
    answers with the records of the other crops only. *)
Theorem listMyInterests_after_deleteCrop
    (id e : string) (s : store) (oid : ObjectId) (crop : value) :
  e <> "" ->
  forallb well_formed_crop s = true ->
  ObjectId_new id = Some oid ->
  findOne (QId oid) s = Some crop ->
  exists before after,
    s = before ++ crop :: after
    /\ snd (deleteCrop id s) = before ++ after
    /\ run (listMyInterests (Some e)) (snd (deleteCrop id s))
       = (Send 200 (VArr (spec_my_interests e before ++ spec_my_interests e after)),
          before ++ after).
Proof.
  intros He Hwf Hid Hf. unfold deleteCrop. rewrite Hid. simpl snd.
  destruct (deleteOne_found _ _ _ Hf) as (b & a & Hs & Hd & _).
  exists b, a. split; [exact Hs|]. split; [exact Hd|]. rewrite Hd.
  assert (Hwf' : forallb well_formed_crop (b ++ a) = true).
  { rewrite Hs in Hwf. rewrite forallb_app in *. simpl in Hwf.
    apply Bool.andb_true_iff in Hwf. destruct Hwf as [H1 H2].
    apply Bool.andb_true_iff in H2. rewrite H1. exact (proj2 H2). }
  unfold listMyInterests. simpl truthy.
  apply String.eqb_neq in He. rewrite He. simpl.
  rewrite (records_of_store e _ Hwf'). unfold spec_my_interests.
  rewrite flat_map_app. reflexivity.
Qed.

Lemma listMyInterests_after_deleteCrop_witness :
  exists before after,
    [crop_C_with [interest_c (VStr "accepted")]; crop_D] = before ++ crop_D :: after
    /\ snd (deleteCrop "000000000000000000000007"
              [crop_C_with [interest_c (VStr "accepted")]; crop_D])
       = before ++ after
    /\ run (listMyInterests (Some "c@x.com"))
           (snd (deleteCrop "000000000000000000000007"
                   [crop_C_with [interest_c (VStr "accepted")]; crop_D]))
       = (Send 200 (VArr (spec_my_interests "c@x.com" before
                          ++ spec_my_interests "c@x.com" after)),
          before ++ after).
Proof.
  exact (listMyInterests_after_deleteCrop "000000000000000000000007" "c@x.com"
           [crop_C_with [interest_c (VStr "accepted")]; crop_D] 7%N crop_D
           ltac:(discriminate) eq_refl eq_refl eq_refl).
Defined.

(** X11.  [deleteCrop] with an identifier that no document has answers
    with success and deletes nothing; with a malformed identifier it
    answers nothing and deletes nothing. *)
Theorem deleteCrop_nothing_to_delete (id : string) (s : store) :
  match ObjectId_new id with
  | None => deleteCrop id s = (Unhandled, s)
  | Some oid =>
      forallb (fun d => negb (has_id oid d)) s = true ->
      deleteCrop id s = (Send 200 success, s)
  end.
Proof.
  unfold deleteCrop. destruct (ObjectId_new id) as [oid|]; [|reflexivity].
  intros H. rewrite (deleteOne_missing (QId oid) s); [reflexivity|].
  exact (proj2 (findOne_none (QId oid) s) H).
Qed.

Lemma deleteCrop_nothing_to_delete_witness :
  deleteCrop crop_id [crop_D] = (Send 200 success, [crop_D]).
Proof.
  exact (deleteCrop_nothing_to_delete crop_id [crop_D] eq_refl).
Defined.

(** ** [listMyCrops] and the owner test of [submitInterest] *)

Lemma owner_tests_agree crop x e :
  owner_email_of crop = Some x ->
  owner_email_match e crop = String.eqb x e
  /\ strict_eq (get_prop_opt (get_prop crop "owner") "ownerEmail") (VStr e)
     = String.eqb x e.
Proof.
  unfold owner_email_of, owner_email_match, get_prop_opt.
  destruct (get_prop crop "owner") as [| | | | | | | |fs]; try discriminate.
  simpl. destruct (assoc "ownerEmail" fs) as [[| | | |y| | | |]|]; try discriminate.
  intros H. injection H as ->. unfold mongo_eq. simpl.
  rewrite Bool.orb_false_r. split; reflexivity.
Qed.

(** X12.  [listMyCrops] and [submitInterest] agree on who owns a crop
    whose owner is a document with a string [ownerEmail]: the crop is
    among the crops [listMyCrops] answers for an email exactly when a
    valid submission on it with that [userEmail] is refused as the
    owner's. *)
Theorem listMyCrops_lists_the_crops_closed_to_the_owner
    (lt : value -> bool) (env : environment) (id : string) (body : value)
    (s : store) (oid : ObjectId) (crop : value) (x e : string) :
  ObjectId_new id = Some oid ->
  findOne (QId oid) s = Some crop ->
  owner_email_of crop = Some x ->
  get_prop body "userEmail" = VStr e ->
  passes_validation lt body = true ->
  exists mine,
    listMyCrops (Some e) s = (Send 200 (VArr mine), s)
    /\ (In crop mine <-> fst (run (submitInterest lt env id body) s) = forbidden).
Proof.
  intros Hid Hf Ho He Hv.
  pose proof (body_with_email_not_nullish e _ He) as Hb.
  assert (Hte : truthy (VStr e) = true).
  { unfold passes_validation in Hv. rewrite He in Hv.
    destruct (truthy (VStr e)); [reflexivity | discriminate]. }
  destruct (owner_tests_agree crop x e Ho) as [Hq Hjs].
  exists (filter (owner_email_match e) s). split.
  { unfold listMyCrops. rewrite Hte. reflexivity. }
  rewrite (submit_valid lt _ _ _ _ Hb Hv), Hid, Hf. cbv zeta. rewrite He, Hjs.
  rewrite filter_In, Hq. split.
  - intros [_ ->]. reflexivity.
  - destruct (String.eqb x e).
    + intros _. split; [exact (proj1 (findOne_matches _ _ _ Hf)) | reflexivity].
    + intros H. exfalso.
      destruct (existingInterest crop (VStr e)) as [ex|]; [|discriminate].
      destruct (truthy ex); [discriminate|].
      destruct (updateOne _ _ s) as [[r s']|]; discriminate.
Qed.

Lemma listMyCrops_lists_the_crops_closed_to_the_owner_witness :
  exists mine,
    listMyCrops (Some "a@x.com") [crop_D; crop_C] = (Send 200 (VArr mine), [crop_D; crop_C])
    /\ (In crop_C mine <->
        fst (run (submitInterest never_consulted first_request crop_id
                    (submission "a@x.com" "A" 5)) [crop_D; crop_C]) = forbidden).
Proof.
  exact (listMyCrops_lists_the_crops_closed_to_the_owner never_consulted first_request
           crop_id (submission "a@x.com" "A" 5) [crop_D; crop_C] crop_oid crop_C
           "a@x.com" "a@x.com" eq_refl eq_refl eq_refl eq_refl eq_refl).
Defined.

(** ** [putCrop] and [patchCrop]: what an update of a crop leaves alone *)

Lemma apply_set_same_id body d d' cid :
  apply_set body d = Some d' -> has_id cid d = true ->
  get_prop d' "_id" = get_prop d "_id".
Proof.
  unfold apply_set, has_id. destruct body as [| | | | | | | |fs]; try discriminate.
  destruct (conflict _); [discriminate|].
  destruct (set_fields fs d) as [d1|]; [|discriminate].
  destruct (value_eqb (get_prop d1 "_id") (get_prop d "_id")) eqn:E; [|discriminate].
  intros H Hid. injection H as <-.
  destruct (get_prop d "_id"); try discriminate.
  exact (value_eqb_oid _ _ E).
Qed.

(** X13.  An update of a crop never creates one: with a well-formed
    identifier that no document has and a body that is a document of one
    or more distinct plain field names other than [_id], [putCrop] answers with
    success and [patchCrop] with a result that counts no match, and the
    collection stays as it is; with a malformed identifier, whatever the
    body, [putCrop] answers nothing, [patchCrop] answers 500, and the
    collection stays as it is. *)
Theorem crop_update_never_creates (id : string) (body : value) (s : store) :
  match ObjectId_new id with
  | None =>
      run (putCrop id body) s = (Unhandled, s)
      /\ run (patchCrop id body) s = (Send 500 (error "Failed to update crop"), s)
  | Some oid =>
      plain_fields body = true ->
      forallb (fun d => negb (has_id oid d)) s = true ->
      run (putCrop id body) s = (Send 200 success, s)
      /\ run (patchCrop id body) s
         = (Send 200 (result_value {| matchedCount := 0; modifiedCount := 0 |}), s)
  end.
Proof.
  destruct (ObjectId_new id) as [oid|] eqn:Hid.
  - intros _ H. destruct (crop_update_run id body s oid Hid) as [Hput Hpatch].
    rewrite Hput, Hpatch.
    rewrite (updateOne_missing _ _ _ (proj2 (findOne_none (QId oid) s) H)).
    split; reflexivity.
  - unfold putCrop, patchCrop. rewrite Hid. split; reflexivity.
Qed.

Lemma crop_update_never_creates_witness :
  run (putCrop crop_id (VObj [("name", VStr "Wheat"); ("type", VStr "grain")])) [crop_D]
  = (Send 200 success, [crop_D])
  /\ run (patchCrop crop_id (VObj [("name", VStr "Wheat"); ("type", VStr "grain")])) [crop_D]
     = (Send 200 (result_value {| matchedCount := 0; modifiedCount := 0 |}), [crop_D]).
Proof.
  exact (crop_update_never_creates crop_id
           (VObj [("name", VStr "Wheat"); ("type", VStr "grain")]) [crop_D]
           eq_refl eq_refl).
Defined.

(** X14.  An update of a crop changes at most one document and no
    identifier: after [putCrop] or [patchCrop] the collection holds the
    same identifiers in the same order, and it is the collection as it
    was or the collection with the first crop of the identifier replaced
    in place. *)
Theorem crop_update_changes_one_crop (id : string) (body : value) (s : store) :
  let s' := snd (run (putCrop id body) s) in
  snd (run (patchCrop id body) s) = s'
  /\ ids s' = ids s
  /\ (s' = s
      \/ exists oid crop crop',
           ObjectId_new id = Some oid
           /\ findOne (QId oid) s = Some crop
           /\ one_replaced s s' crop crop').
Proof.
  intros s'. unfold s'. clear s'.
  destruct (ObjectId_new id) as [oid|] eqn:Hid.
  2:{ unfold putCrop, patchCrop. rewrite Hid. simpl. auto. }
  destruct (crop_update_run id body s oid Hid) as [Hput Hpatch].
  rewrite Hput, Hpatch.
  destruct (updateOne (QId oid) (USet body) s) as [[r s1]|] eqn:Hu; simpl; [|auto].
  split; [reflexivity|].
  destruct (updateOne_frame _ _ _ _ _ Hu)
    as [[_ ->] | (d & d' & b & a & Hf & Ha & Hs & Hs' & _)]; [auto|].
  split.
  - rewrite Hs, Hs'. unfold ids. rewrite !map_app. simpl.
    simpl in Ha. rewrite (apply_set_same_id _ _ _ oid Ha); [reflexivity|].
    exact (proj2 (findOne_matches _ _ _ Hf)).
  - right. exists oid, d, d'. split; [reflexivity|]. split; [exact Hf|].
    exists b, a. auto.
Qed.

(** ** [listCrops] *)

Lemma firstn_incl {A : Type} n (l : list A) : incl (firstn n l) l.
Proof.
  revert n. induction l as [|x l IH]; intros [|n]; simpl; intros y Hy;
    try contradiction.
  destruct Hy as [-> | Hy]; [now left | right; exact (IH n y Hy)].
Qed.

(** X15.  [listCrops] with a limit that is a string of decimal digits
    below 2^31 answers with a prefix of what it answers without the
    limit, in store order: the whole of it when the limit is 0, at most
    as many crops as the limit otherwise.  Every crop of the answer is a
    document of the collection and, when a non-empty type is asked for,
    has that type.  The collection stays as it is. *)
Theorem listCrops_limit_is_a_prefix
    (limit_other : string -> list value -> response)
    (type : option string) (l : string) (n : N) (s : store) :
  l <> "" ->
  decimal 0%N l = Some n ->
  (n < 2147483648)%N ->
  exists crops rest,
    listCrops limit_other type (Some l) s = (Send 200 (VArr crops), s)
    /\ listCrops limit_other type None s = (Send 200 (VArr (crops ++ rest)), s)
    /\ (n = 0%N -> rest = [])
    /\ (n <> 0%N -> List.length crops <= N.to_nat n)
    /\ incl crops s
    /\ (forall t, type = Some t -> t <> "" -> Forall (fun c => type_match t c = true) crops).
Proof.
  intros Hl Hd Hn. unfold listCrops. simpl truthy.
  apply String.eqb_neq in Hl. rewrite Hl, Hd. simpl negb. cbv iota.
  apply N.ltb_lt in Hn. rewrite Hn.
  set (selected := match type with
                   | Some t => if negb (String.eqb t "") then filter (type_match t) s else s
                   | None => s
                   end).
  assert (Hincl : incl selected s).
  { unfold selected. destruct type as [t|]; [|apply incl_refl].
    destruct (negb (String.eqb t "")); [|apply incl_refl].
    intros x Hx. apply filter_In in Hx. exact (proj1 Hx). }
  assert (Htype : forall t, type = Some t -> t <> "" ->
                            Forall (fun c => type_match t c = true) selected).
  { intros t -> Ht. unfold selected. apply String.eqb_neq in Ht. rewrite Ht. simpl.
    apply Forall_forall. intros x Hx. apply filter_In in Hx. exact (proj2 Hx). }
  destruct (N.eqb n 0) eqn:E.
  - exists selected, []. rewrite app_nil_r.
    split; [reflexivity|]. split; [reflexivity|]. split; [reflexivity|].
    split; [intros H; apply N.eqb_eq in E; contradiction|]. split; assumption.
  - exists (firstn (N.to_nat n) selected), (skipn (N.to_nat n) selected).
    rewrite firstn_skipn.
    split; [reflexivity|]. split; [reflexivity|].
    split; [intros H; apply N.eqb_neq in E; contradiction|].
    split; [intros _; apply firstn_le_length|].
    split.
    + intros x Hx. apply Hincl. exact (firstn_incl _ _ x Hx).
    + intros t Ht Hne. specialize (Htype t Ht Hne).
      rewrite Forall_forall in *. intros x Hx. apply Htype.
      exact (firstn_incl _ _ x Hx).
Qed.

Lemma listCrops_limit_is_a_prefix_witness :
  exists crops rest,
    listCrops (fun _ _ => Unhandled) (Some "fibre") (Some "1")
              [crop_C; crop_D; crop_D]
    = (Send 200 (VArr crops), [crop_C; crop_D; crop_D])
    /\ listCrops (fun _ _ => Unhandled) (Some "fibre") None [crop_C; crop_D; crop_D]
       = (Send 200 (VArr (crops ++ rest)), [crop_C; crop_D; crop_D])
    /\ List.length crops <= 1.
Proof.
  destruct (listCrops_limit_is_a_prefix (fun _ _ => Unhandled) (Some "fibre") "1" 1%N
              [crop_C; crop_D; crop_D] ltac:(discriminate) eq_refl eq_refl)
    as (crops & rest & H1 & H2 & _ & H4 & _).
  exists crops, rest. split; [exact H1|]. split; [exact H2|].
  apply H4. discriminate.
Defined.

(** ** Two buyers at once *)

Lemma interleave_first sched p q s :
  interleave (0 :: sched) [p; q] s
  = interleave sched [fst (step p s); q] (snd (step p s)).
Proof. simpl. destruct (step p s); reflexivity. Qed.

Lemma interleave_second sched p q s :
  interleave (1 :: sched) [p; q] s
  = interleave sched [p; fst (step q s)] (snd (step q s)).
Proof. simpl. destruct (step q s); reflexivity. Qed.

Lemma read_step lt env id body s oid crop e :
  ObjectId_new id = Some oid ->
  get_prop body "userEmail" = VStr e ->
  passes_validation lt body = true ->
  findOne (QId oid) s = Some crop ->
  strict_eq (get_prop_opt (get_prop crop "owner") "ownerEmail") (VStr e) = false ->
  no_interest_from (VStr e) crop = true ->
  step (submitInterest lt env id body) s
  = (pending_push oid (interest_of id e (env, body)), s).
Proof.
  intros Hid He Hv Hf Ho Hn.
  pose proof (body_with_email_not_nullish e _ He) as Hb.
  destruct (no_interest_from_existing _ _ Hn) as [Hx _].
  unfold submitInterest, passes_validation in *. rewrite Hb.
  repeat rewrite Bool.andb_true_iff in Hv. destruct Hv as [[[Hte Htn] Hq] Hl].
  rewrite Hte, Htn, Hq. rewrite Bool.negb_true_iff in Hl. rewrite Hl. simpl.
  rewrite Hid. simpl. rewrite Hf, He, Ho, Hx. reflexivity.
Qed.

Lemma write_step oid i s crop crop' :
  findOne (QId oid) s = Some crop ->
  apply_push i crop = Some crop' ->
  exists s',
    step (pending_push oid i) s = (Respond (Send 200 i), s')
    /\ findOne (QId oid) s' = Some crop'.
Proof.
  intros Hf Ha.
  destruct (updateOne_applied (QId oid) (UPush i) s crop crop' Hf Ha)
    as (r & s' & Hu & Hfind).
  exists s'. split.
  - unfold pending_push. simpl. rewrite Hu. reflexivity.
  - apply Hfind. simpl. rewrite (apply_push_keeps_id _ _ _ oid Ha).
    exact (proj2 (findOne_matches _ _ _ Hf)).
Qed.

Lemma find_by_email_snoc_other email l j :
  find_by_email email l = Some VUndef ->
  nullish j = false ->
  strict_eq (get_prop j "userEmail") email = false ->
  find_by_email email (l ++ [j]) = Some VUndef.
Proof.
  intros H Hj Hm. induction l as [|i l IH]; simpl in *.
  - unfold get_prop_strict. rewrite Hj, Hm. reflexivity.
  - destruct (get_prop_strict i "userEmail") as [u|] eqn:E; [|discriminate].
    destruct (strict_eq u email); [|auto].
    injection H as ->. discriminate.
Qed.

Lemma still_open_after_push id e e' c crop crop' :
  e' <> e ->
  no_interest_from (VStr e) crop = true ->
  apply_push (interest_of id e' c) crop = Some crop' ->
  no_interest_from (VStr e) crop' = true
  /\ get_prop crop' "owner" = get_prop crop "owner"
  /\ interests_of crop' = interests_of crop ++ [bson (interest_of id e' c)].
Proof.
  intros Hne Hn Ha.
  assert (Hm : strict_eq (get_prop (bson (interest_of id e' c)) "userEmail") (VStr e) = false).
  { simpl. apply String.eqb_neq. exact Hne. }
  split; [|split].
  - assert (Hj : nullish (bson (interest_of id e' c)) = false) by reflexivity.
    unfold no_interest_from in *. unfold apply_push in Ha.
    remember (bson (interest_of id e' c)) as j eqn:Ej. clear Ej.
    destruct crop as [| | | | | | | |fs]; try discriminate.
    destruct (assoc "interests" fs) as [[| | | | | | |l|]|] eqn:Ei; try discriminate;
      injection Ha as <-.
    + rewrite assoc_set_same.
      destruct (find_by_email (VStr e) l) as [[| | | | | | | |]|] eqn:Hl; try discriminate.
      rewrite (find_by_email_snoc_other _ _ j Hl Hj Hm). reflexivity.
    + rewrite (assoc_app_absent _ _ _ _ Ei). simpl String.eqb. cbv iota.
      change [j] with ([] ++ [j]).
      rewrite (find_by_email_snoc_other (VStr e) [] j eq_refl Hj Hm). reflexivity.
  - apply (apply_push_other _ _ _ "owner" Ha). discriminate.
  - unfold interests_of at 1. rewrite (apply_push_interests _ _ _ Ha). reflexivity.
Qed.

(** X16.  Two buyers never cost each other their interest: when two valid
    submissions of different [userEmail]s on the same crop, neither from
    the owner nor from a buyer the crop already has an interest from, are
    in flight together, then in whatever order the store serves their
    four commands both are answered with their interest and the crop ends
    with both interests after the earlier ones, in the order of the two
    pushes. *)
Theorem submitInterest_two_buyers_both_stored
    (lt : value -> bool) (env1 env2 : environment) (id : string)
    (body1 body2 : value) (e1 e2 : string) (s : store) (oid : ObjectId)
    (crop : value) (sched : list nat) :
  ObjectId_new id = Some oid ->
  findOne (QId oid) s = Some crop ->
  get_prop body1 "userEmail" = VStr e1 ->
  get_prop body2 "userEmail" = VStr e2 ->
  e1 <> e2 ->
  passes_validation lt body1 = true ->
  passes_validation lt body2 = true ->
  strict_eq (get_prop_opt (get_prop crop "owner") "ownerEmail") (VStr e1) = false ->
  strict_eq (get_prop_opt (get_prop crop "owner") "ownerEmail") (VStr e2) = false ->
  no_interest_from (VStr e1) crop = true ->
  no_interest_from (VStr e2) crop = true ->
  In sched two_by_two ->
  let i1 := interest_of id e1 (env1, body1) in
  let i2 := interest_of id e2 (env2, body2) in
  exists s' crop',
    interleave sched [submitInterest lt env1 id body1; submitInterest lt env2 id body2] s
    = ([Respond (Send 200 i1); Respond (Send 200 i2)], s')
    /\ findOne (QId oid) s' = Some crop'
    /\ (interests_of crop' = interests_of crop ++ [bson i1; bson i2]
        \/ interests_of crop' = interests_of crop ++ [bson i2; bson i1]).
Proof.
  intros Hid Hf He1 He2 Hne Hv1 Hv2 Ho1 Ho2 Hn1 Hn2 Hin i1 i2.
  assert (Hne' : e2 <> e1) by congruence.
  destruct (proj2 (no_interest_from_existing _ _ Hn1) i1) as [c1 Hp1].
  destruct (proj2 (no_interest_from_existing _ _ Hn2) i2) as [c2 Hp2].
  destruct (still_open_after_push id e2 e1 _ _ _ Hne Hn2 Hp1) as (Hn21 & Hown1 & Hi1).
  destruct (still_open_after_push id e1 e2 _ _ _ Hne' Hn1 Hp2) as (Hn12 & Hown2 & Hi2).
  destruct (proj2 (no_interest_from_existing _ _ Hn21) i2) as [c12 Hp12].
  destruct (proj2 (no_interest_from_existing _ _ Hn12) i1) as [c21 Hp21].
  assert (Hi12 : interests_of c12 = interests_of crop ++ [bson i1; bson i2]).
  { unfold interests_of at 1. rewrite (apply_push_interests _ _ _ Hp12), Hi1.
    rewrite <- app_assoc. reflexivity. }
  assert (Hi21 : interests_of c21 = interests_of crop ++ [bson i2; bson i1]).
  { unfold interests_of at 1. rewrite (apply_push_interests _ _ _ Hp21), Hi2.
    rewrite <- app_assoc. reflexivity. }
  destruct (write_step oid i1 s crop c1 Hf Hp1) as (s1 & W1 & Hf1).
  destruct (write_step oid i2 s crop c2 Hf Hp2) as (s2 & W2 & Hf2).
  destruct (write_step oid i2 s1 c1 c12 Hf1 Hp12) as (s12 & W12 & Hf12).
  destruct (write_step oid i1 s2 c2 c21 Hf2 Hp21) as (s21 & W21 & Hf21).
  pose proof (read_step lt env1 id body1 s oid crop e1 Hid He1 Hv1 Hf Ho1 Hn1) as R1.
  pose proof (read_step lt env2 id body2 s oid crop e2 Hid He2 Hv2 Hf Ho2 Hn2) as R2.
  assert (R2' : step (submitInterest lt env2 id body2) s1 = (pending_push oid i2, s1)).
  { apply (read_step lt env2 id body2 s1 oid c1 e2); auto. rewrite Hown1. exact Ho2. }
  assert (R1' : step (submitInterest lt env1 id body1) s2 = (pending_push oid i1, s2)).
  { apply (read_step lt env1 id body1 s2 oid c2 e1); auto. rewrite Hown2. exact Ho1. }
  fold i1 in R1, R1'. fold i2 in R2, R2'.
  unfold two_by_two in Hin. simpl in Hin.
  destruct Hin as [<- | [<- | [<- | [<- | [<- | [<- | []]]]]]].
  - exists s12, c12. split; [|auto].
    rewrite interleave_first, R1. simpl fst; simpl snd.
    rewrite interleave_first, W1. simpl fst; simpl snd.
    rewrite interleave_second, R2'. simpl fst; simpl snd.
    rewrite interleave_second, W12. reflexivity.
  - exists s12, c12. split; [|auto].
    rewrite interleave_first, R1. simpl fst; simpl snd.
    rewrite interleave_second, R2. simpl fst; simpl snd.
    rewrite interleave_first, W1. simpl fst; simpl snd.
    rewrite interleave_second, W12. reflexivity.
  - exists s21, c21. split; [|auto].
    rewrite interleave_first, R1. simpl fst; simpl snd.
    rewrite interleave_second, R2. simpl fst; simpl snd.
    rewrite interleave_second, W2. simpl fst; simpl snd.
    rewrite interleave_first, W21. reflexivity.
  - exists s12, c12. split; [|auto].
    rewrite interleave_second, R2. simpl fst; simpl snd.
    rewrite interleave_first, R1. simpl fst; simpl snd.
    rewrite interleave_first, W1. simpl fst; simpl snd.
    rewrite interleave_second, W12. reflexivity.
  - exists s21, c21. split; [|auto].
    rewrite interleave_second, R2. simpl fst; simpl snd.
    rewrite interleave_first, R1. simpl fst; simpl snd.
    rewrite interleave_second, W2. simpl fst; simpl snd.
    rewrite interleave_first, W21. reflexivity.
  - exists s21, c21. split; [|auto].
    rewrite interleave_second, R2. simpl fst; simpl snd.
    rewrite interleave_second, W2. simpl fst; simpl snd.
    rewrite interleave_first, R1'. simpl fst; simpl snd.
    rewrite interleave_first, W21. reflexivity.
Qed.

Lemma submitInterest_two_buyers_both_stored_witness :
  exists s' crop',
    interleave [0; 1; 1; 0]
      [ submitInterest never_consulted first_request crop_id (submission "b@x.com" "B" 2);
        submitInterest never_consulted second_request crop_id (submission "c@x.com" "C" 4) ]
      [crop_C]
    = ([ Respond (Send 200 (interest_of crop_id "b@x.com"
                              (first_request, submission "b@x.com" "B" 2)));
         Respond (Send 200 (interest_of crop_id "c@x.com"
                              (second_request, submission "c@x.com" "C" 4))) ],
       s')
    /\ findOne (QId crop_oid) s' = Some crop'
    /\ List.length (interests_of crop') = 2.
Proof.
  destruct (submitInterest_two_buyers_both_stored never_consulted first_request
              second_request crop_id (submission "b@x.com" "B" 2)
              (submission "c@x.com" "C" 4) "b@x.com" "c@x.com" [crop_C] crop_oid crop_C
              [0; 1; 1; 0] eq_refl eq_refl eq_refl eq_refl ltac:(discriminate)
              eq_refl eq_refl eq_refl eq_refl eq_refl eq_refl
              ltac:(simpl; auto))
    as (s' & crop' & Hr & Hf & Hi).
  exists s', crop'. split; [exact Hr|]. split; [exact Hf|].
  destruct Hi as [-> | ->]; reflexivity.
Defined.

(** ** The same buyer twice at once *)

Lemma read_step_duplicate lt env id body s oid crop e existing :
  ObjectId_new id = Some oid ->
  get_prop body "userEmail" = VStr e ->
  passes_validation lt body = true ->
  findOne (QId oid) s = Some crop ->
  strict_eq (get_prop_opt (get_prop crop "owner") "ownerEmail") (VStr e) = false ->
  existingInterest crop (VStr e) = Some existing ->
  truthy existing = true ->
  step (submitInterest lt env id body) s = (Respond duplicate, s).
Proof.
  intros Hid He Hv Hf Ho Hx Ht.
  pose proof (body_with_email_not_nullish e _ He) as Hb.
  unfold submitInterest, passes_validation in *. rewrite Hb.
  repeat rewrite Bool.andb_true_iff in Hv. destruct Hv as [[[Hte Htn] Hq] Hl].
  rewrite Hte, Htn, Hq. rewrite Bool.negb_true_iff in Hl. rewrite Hl. simpl.
  rewrite Hid. simpl. rewrite Hf, He, Ho, Hx, Ht. reflexivity.
Qed.

Lemma sent_after_push id e c crop crop' :
  e <> "" ->
  no_interest_from (VStr e) crop = true ->
  apply_push (interest_of id e c) crop = Some crop' ->
  existingInterest crop' (VStr e) = Some (bson (interest_of id e c)).
Proof.
  intros He Hn Ha.
  assert (Hte : truthy (VStr e) = true).
  { simpl. apply String.eqb_neq in He. rewrite He. reflexivity. }
  destruct (no_interest_from_existing _ _ Hn) as [Hx _].
  unfold existingInterest in *. rewrite (apply_push_interests _ _ _ Ha). simpl nullish.
  cbv iota.
  assert (Hl : find_by_email (VStr e) (interests_of crop) = Some VUndef).
  { unfold interests_of. destruct (get_prop crop "interests"); simpl in Hx;
      try discriminate; try reflexivity. exact Hx. }
  apply (find_by_email_snoc _ _ VUndef); auto.
  simpl. apply String.eqb_refl.
Qed.

Lemma push_after_push i j crop crop' :
  apply_push i crop = Some crop' -> exists crop'', apply_push j crop' = Some crop''.
Proof.
  intros Ha. pose proof (apply_push_interests _ _ _ Ha) as Hi.
  unfold apply_push in *. destruct crop as [| | | | | | | |fs]; try discriminate.
  destruct (assoc "interests" fs) as [[| | | | | | |l|]|]; try discriminate;
    injection Ha as <-; simpl in Hi;
    destruct (assoc "interests" _) as [[| | | | | | |l'|]|]; try discriminate;
    eexists; reflexivity.
Qed.

(** X17.  When the duplicate arises.  Two valid submissions of the same
    [userEmail] on a crop that has no interest from it are in flight
    together.  Served one after the other, the first is answered with its
    interest and the second with the duplicate response, and the crop
    gains one interest.  Served in any of the four orders in which both
    read the crop before either pushes, both are answered with their
    interest and the crop gains both. *)
Theorem submitInterest_duplicate_iff_reads_precede_pushes
    (lt : value -> bool) (env1 env2 : environment) (id : string)
    (body1 body2 : value) (e : string) (s : store) (oid : ObjectId)
    (crop : value) (sched : list nat) :
  ObjectId_new id = Some oid ->
  findOne (QId oid) s = Some crop ->
  get_prop body1 "userEmail" = VStr e ->
  get_prop body2 "userEmail" = VStr e ->
  passes_validation lt body1 = true ->
  passes_validation lt body2 = true ->
  strict_eq (get_prop_opt (get_prop crop "owner") "ownerEmail") (VStr e) = false ->
  no_interest_from (VStr e) crop = true ->
  In sched two_by_two ->
  let i1 := interest_of id e (env1, body1) in
  let i2 := interest_of id e (env2, body2) in
  exists rs s' crop',
    interleave sched [submitInterest lt env1 id body1; submitInterest lt env2 id body2] s
    = (rs, s')
    /\ findOne (QId oid) s' = Some crop'
    /\ ((sched = [0; 0; 1; 1]
         /\ rs = [Respond (Send 200 i1); Respond duplicate]
         /\ interests_of crop' = interests_of crop ++ [bson i1])
        \/ (sched = [1; 1; 0; 0]
            /\ rs = [Respond duplicate; Respond (Send 200 i2)]
            /\ interests_of crop' = interests_of crop ++ [bson i2])
        \/ (sched <> [0; 0; 1; 1] /\ sched <> [1; 1; 0; 0]
            /\ rs = [Respond (Send 200 i1); Respond (Send 200 i2)]
            /\ (interests_of crop' = interests_of crop ++ [bson i1; bson i2]
                \/ interests_of crop' = interests_of crop ++ [bson i2; bson i1]))).
Proof.
  intros Hid Hf He1 He2 Hv1 Hv2 Ho Hn Hin i1 i2.
  assert (Hne : e <> "").
  { intros ->. unfold passes_validation in Hv1. rewrite He1 in Hv1. discriminate. }
  destruct (proj2 (no_interest_from_existing _ _ Hn) i1) as [c1 Hp1].
  destruct (proj2 (no_interest_from_existing _ _ Hn) i2) as [c2 Hp2].
  destruct (push_after_push i1 i2 _ _ Hp1) as [c12 Hp12].
  destruct (push_after_push i2 i1 _ _ Hp2) as [c21 Hp21].
  assert (Hi1 : interests_of c1 = interests_of crop ++ [bson i1]).
  { unfold interests_of at 1. rewrite (apply_push_interests _ _ _ Hp1). reflexivity. }
  assert (Hi2 : interests_of c2 = interests_of crop ++ [bson i2]).
  { unfold interests_of at 1. rewrite (apply_push_interests _ _ _ Hp2). reflexivity. }
  assert (Hi12 : interests_of c12 = interests_of crop ++ [bson i1; bson i2]).
  { unfold interests_of at 1. rewrite (apply_push_interests _ _ _ Hp12), Hi1.
    rewrite <- app_assoc. reflexivity. }
  assert (Hi21 : interests_of c21 = interests_of crop ++ [bson i2; bson i1]).
  { unfold interests_of at 1. rewrite (apply_push_interests _ _ _ Hp21), Hi2.
    rewrite <- app_assoc. reflexivity. }
  destruct (write_step oid i1 s crop c1 Hf Hp1) as (s1 & W1 & Hf1).
  destruct (write_step oid i2 s crop c2 Hf Hp2) as (s2 & W2 & Hf2).
  destruct (write_step oid i2 s1 c1 c12 Hf1 Hp12) as (s12 & W12 & Hf12).
  destruct (write_step oid i1 s2 c2 c21 Hf2 Hp21) as (s21 & W21 & Hf21).
  pose proof (read_step lt env1 id body1 s oid crop e Hid He1 Hv1 Hf Ho Hn) as R1.
  pose proof (read_step lt env2 id body2 s oid crop e Hid He2 Hv2 Hf Ho Hn) as R2.
  assert (D2 : step (submitInterest lt env2 id body2) s1 = (Respond duplicate, s1)).
  { apply (read_step_duplicate lt env2 id body2 s1 oid c1 e (bson i1)); auto.
    - rewrite (apply_push_other _ _ _ "owner" Hp1) by discriminate. exact Ho.
    - exact (sent_after_push id e _ _ _ Hne Hn Hp1). }
  assert (D1 : step (submitInterest lt env1 id body1) s2 = (Respond duplicate, s2)).
  { apply (read_step_duplicate lt env1 id body1 s2 oid c2 e (bson i2)); auto.
    - rewrite (apply_push_other _ _ _ "owner" Hp2) by discriminate. exact Ho.
    - exact (sent_after_push id e _ _ _ Hne Hn Hp2). }
  fold i1 in R1. fold i2 in R2.
  unfold two_by_two in Hin. simpl in Hin.
  destruct Hin as [<- | [<- | [<- | [<- | [<- | [<- | []]]]]]].
  - exists [Respond (Send 200 i1); Respond duplicate], s1, c1.
    split; [|split; [exact Hf1 | left; auto]].
    rewrite interleave_first, R1. simpl fst; simpl snd.
    rewrite interleave_first, W1. simpl fst; simpl snd.
    rewrite interleave_second, D2. simpl fst; simpl snd.
    rewrite interleave_second. reflexivity.
  - exists [Respond (Send 200 i1); Respond (Send 200 i2)], s12, c12.
    split; [|split; [exact Hf12 | right; right; repeat split; auto; discriminate]].
    rewrite interleave_first, R1. simpl fst; simpl snd.
    rewrite interleave_second, R2. simpl fst; simpl snd.
    rewrite interleave_first, W1. simpl fst; simpl snd.
    rewrite interleave_second, W12. reflexivity.
  - exists [Respond (Send 200 i1); Respond (Send 200 i2)], s21, c21.
    split; [|split; [exact Hf21 | right; right; repeat split; auto; discriminate]].
    rewrite interleave_first, R1. simpl fst; simpl snd.
    rewrite interleave_second, R2. simpl fst; simpl snd.
    rewrite interleave_second, W2. simpl fst; simpl snd.
    rewrite interleave_first, W21. reflexivity.
  - exists [Respond (Send 200 i1); Respond (Send 200 i2)], s12, c12.
    split; [|split; [exact Hf12 | right; right; repeat split; auto; discriminate]].
    rewrite interleave_second, R2. simpl fst; simpl snd.
    rewrite interleave_first, R1. simpl fst; simpl snd.
    rewrite interleave_first, W1. simpl fst; simpl snd.
    rewrite interleave_second, W12. reflexivity.
  - exists [Respond (Send 200 i1); Respond (Send 200 i2)], s21, c21.
    split; [|split; [exact Hf21 | right; right; repeat split; auto; discriminate]].
    rewrite interleave_second, R2. simpl fst; simpl snd.
    rewrite interleave_first, R1. simpl fst; simpl snd.
    rewrite interleave_second, W2. simpl fst; simpl snd.
    rewrite interleave_first, W21. reflexivity.
  - exists [Respond duplicate; Respond (Send 200 i2)], s2, c2.
    split; [|split; [exact Hf2 | right; left; auto]].
    rewrite interleave_second, R2. simpl fst; simpl snd.
    rewrite interleave_second, W2. simpl fst; simpl snd.
    rewrite interleave_first, D1. simpl fst; simpl snd.
    rewrite interleave_first. reflexivity.
Qed.

Lemma submitInterest_duplicate_iff_reads_precede_pushes_witness :
  exists s',
    interleave [0; 0; 1; 1]
      [ submitInterest never_consulted first_request crop_id (submission "b@x.com" "B" 2);
        submitInterest never_consulted second_request crop_id (submission "b@x.com" "B" 3) ]
      [crop_C]
    = ([ Respond (Send 200 (interest_of crop_id "b@x.com"
                              (first_request, submission "b@x.com" "B" 2)));
         Respond duplicate ], s').
Proof.
  destruct (submitInterest_duplicate_iff_reads_precede_pushes never_consulted
              first_request second_request crop_id (submission "b@x.com" "B" 2)
              (submission "b@x.com" "B" 3) "b@x.com" [crop_C] crop_oid crop_C
              [0; 0; 1; 1] eq_refl eq_refl eq_refl eq_refl eq_refl eq_refl eq_refl eq_refl
              ltac:(simpl; auto))
    as (rs & s' & crop' & Hr & _ & [(_ & -> & _) | [(H & _) | (H & _)]]).
  - exists s'. exact Hr.
  - discriminate.
  - contradiction.
Defined.

(** ** A submission followed by the other routes *)

Lemma find_index_snoc {A : Type} (p : A -> bool) l x :
  forallb (fun y => negb (p y)) l = true -> p x = true ->
  find_index p (l ++ [x]) = Some (List.length l)
  /\ nth_error (l ++ [x]) (List.length l) = Some x
  /\ existsb p (l ++ [x]) = true.
Proof.
  intros Hl Hx. induction l as [|y l IH]; simpl in *.
  - rewrite Hx. auto.
  - apply Bool.andb_true_iff in Hl. destruct Hl as [Hy Hl].
    apply Bool.negb_true_iff in Hy. rewrite Hy.
    destruct (IH Hl) as (I1 & I2 & I3). rewrite I1, I3. auto.
Qed.

Lemma prefix_misses_interest oid iid before :
  forallb (fun x => negb (matches (QId oid) x)) before = true ->
  forallb (fun x => negb (matches (QIdInterest oid iid) x)) before = true.
Proof.
  induction before as [|x b IH]; simpl; intros H; [reflexivity|].
  apply Bool.andb_true_iff in H. destruct H as [Hx Hb].
  apply Bool.negb_true_iff in Hx. rewrite Hx. simpl. auto.
Qed.

(** X18.  An interest just submitted can be given a status.  After a
    submission that is answered with its interest, whose generated
    identifier no earlier interest of the crop has, [updateInterestStatus]
    with the crop's and the interest's identifiers is answered with
    success; the stored interest then has the requested status and is
    otherwise as it was stored. *)
Theorem updateInterestStatus_after_submitInterest
    (lt : value -> bool) (env : environment) (id interestId : string)
    (body update : value) (s : store) (oid : ObjectId) (crop : value) :
  ObjectId_new id = Some oid ->
  findOne (QId oid) s = Some crop ->
  accepted (fst (run (submitInterest lt env id body) s)) = true ->
  ObjectId_new interestId = Some (fresh_id env) ->
  forallb (fun i => negb (elem_matches "_id" (VOid (fresh_id env)) i)) (interests_of crop)
  = true ->
  nullish update = false ->
  let stored :=
    bson (newInterest env id (get_prop body "userEmail") (get_prop body "userName")
            (get_prop body "quantity") (get_prop body "message")) in
  exists s2 i',
    run (updateInterestStatus id interestId update)
        (snd (run (submitInterest lt env id body) s))
    = (Send 200 success, s2)
    /\ target_interest oid (fresh_id env) s2 = Some i'
    /\ get_prop i' "status" = bson (get_prop update "status")
    /\ forall k, k <> "status" -> get_prop i' k = get_prop stored k.
Proof.
  intros Hid Hf Hacc Hiid Hfresh Hu stored.
  destruct (accepted_submission_shape _ _ _ _ _ Hacc)
    as (oid' & crop0 & crop' & b & a & Hid' & Hs & Hs' & Hb & Hm & Ha).
  assert (oid' = oid) by congruence. subst oid'.
  assert (crop0 = crop).
  { rewrite Hs, (findOne_after_prefix _ _ _ _ Hb Hm) in Hf. congruence. }
  subst crop0.
  pose proof (apply_push_interests _ _ _ Ha) as Hi. fold stored in Hi.
  assert (Hlast : elem_matches "_id" (VOid (fresh_id env)) stored = true).
  { unfold stored. simpl. unfold mongo_eq. simpl. rewrite N.eqb_refl. reflexivity. }
  destruct (find_index_snoc _ _ stored Hfresh Hlast) as (F1 & F2 & F3).
  assert (Ht : target_interest oid (fresh_id env) (snd (run (submitInterest lt env id body) s))
               = Some stored).
  { unfold target_interest. rewrite Hs'.
    rewrite (findOne_after_prefix (QIdInterest oid (fresh_id env)) b crop' a).
    - unfold position, interests_of. rewrite Hi. fold stored. rewrite F1. exact F2.
    - exact (prefix_misses_interest _ _ _ Hb).
    - simpl in *. rewrite (apply_push_keeps_id _ _ _ oid Ha), Hm.
      unfold interests_match. rewrite Hi. exact F3. }
  destruct (set_status_applied oid (fresh_id env) (get_prop update "status") _ _ Ht)
    as (r & s2 & i' & Hupd & Ht' & Hst & Hk).
  exists s2, i'. rewrite (update_status_run _ _ _ _ _ _ Hid Hiid Hu), Hupd. auto.
Qed.

Lemma updateInterestStatus_after_submitInterest_witness :
  exists s2 i',
    run (updateInterestStatus crop_id interest_id (VObj [("status", VStr "accepted")]))
        (snd (run (submitInterest never_consulted first_request crop_id
                     (submission "b@x.com" "B" 2)) [crop_C]))
    = (Send 200 success, s2)
    /\ target_interest crop_oid 1%N s2 = Some i'
    /\ get_prop i' "status" = VStr "accepted".
Proof.
  destruct (updateInterestStatus_after_submitInterest never_consulted first_request
              crop_id interest_id (submission "b@x.com" "B" 2)
              (VObj [("status", VStr "accepted")]) [crop_C] crop_oid crop_C
              eq_refl eq_refl eq_refl eq_refl eq_refl eq_refl)
    as (s2 & i' & Hr & Ht & Hs & _).
  exists s2, i'. auto.
Defined.

Lemma well_formed_interests crop :
  well_formed_crop crop = true -> forallb is_document (interests_of crop) = true.
Proof.
  unfold well_formed_crop, interests_of.
  destruct (get_prop crop "interests"); try discriminate; auto.
Qed.

Lemma projection_after_push i crop crop' x :
  apply_push i crop = Some crop' -> projection crop' x = projection crop x.
Proof.
  intros Ha. unfold projection.
  rewrite (apply_push_other _ _ _ "name" Ha) by discriminate.
  rewrite (apply_push_other _ _ _ "owner" Ha) by discriminate.
  reflexivity.
Qed.

Lemma listMyInterests_run e s :
  e <> "" ->
  forallb well_formed_crop s = true ->
  run (listMyInterests (Some e)) s = (Send 200 (VArr (spec_my_interests e s)), s).
Proof.
  intros He Hwf. unfold listMyInterests. simpl truthy.
  apply String.eqb_neq in He. rewrite He. simpl.
  rewrite (records_of_store e s Hwf). reflexivity.
Qed.

(** X19.  An interest just submitted shows in the buyer's list.  On a
    collection whose crops have an absent [interests] field or an array
    of interest documents, after a submission with a string [userEmail]
    that is answered with its interest, [listMyInterests] for that email
    answers what it answered before with one more record, the new
    interest's, with the generated identifier and status pending. *)
Theorem listMyInterests_after_submitInterest
    (lt : value -> bool) (env : environment) (id : string) (body : value)
    (e : string) (s : store) :
  forallb well_formed_crop s = true ->
  get_prop body "userEmail" = VStr e ->
  accepted (fst (run (submitInterest lt env id body) s)) = true ->
  exists before after record,
    run (listMyInterests (Some e)) s = (Send 200 (VArr (before ++ after)), s)
    /\ run (listMyInterests (Some e)) (snd (run (submitInterest lt env id body) s))
       = (Send 200 (VArr (before ++ record :: after)),
          snd (run (submitInterest lt env id body) s))
    /\ get_prop record "_id" = VOid (fresh_id env)
    /\ get_prop record "status" = VStr "pending".
Proof.
  intros Hwf He Hacc.
  destruct (accepted_submission _ _ _ _ _ Hacc) as [_ Hv].
  assert (Hne : e <> "").
  { intros ->. unfold passes_validation in Hv. rewrite He in Hv. discriminate. }
  destruct (accepted_submission_shape _ _ _ _ _ Hacc)
    as (oid & crop & crop' & b & a & Hid & Hs & Hs' & Hb & Hm & Ha).
  rewrite He in Ha. rewrite Hs'.
  set (i := newInterest env id (VStr e) (get_prop body "userName")
              (get_prop body "quantity") (get_prop body "message")) in *.
  pose proof (apply_push_interests _ _ _ Ha) as Hi.
  assert (Hj : is_document (bson i) = true /\ sent_by e (bson i) = true
               /\ get_prop (bson i) "_id" = VOid (fresh_id env)
               /\ get_prop (bson i) "status" = VStr "pending").
  { unfold sent_by. simpl. rewrite String.eqb_refl. auto. }
  destruct Hj as (Hdoc & Hsent & Hjid & Hjst).
  remember (bson i) as j eqn:Ej. clear Ej.
  assert (Hwfc : well_formed_crop crop = true /\ forallb well_formed_crop b = true
                 /\ forallb well_formed_crop a = true).
  { rewrite Hs, forallb_app in Hwf. simpl in Hwf.
    apply Bool.andb_true_iff in Hwf. destruct Hwf as [H1 H2].
    apply Bool.andb_true_iff in H2. tauto. }
  destruct Hwfc as (Hc & Hwb & Hwa).
  assert (Hwf' : forallb well_formed_crop (b ++ crop' :: a) = true).
  { rewrite forallb_app. cbn [forallb]. rewrite Hwb, Hwa. unfold well_formed_crop at 1.
    rewrite Hi, forallb_app, (well_formed_interests _ Hc). cbn [forallb].
    rewrite Hdoc. reflexivity. }
  exists (spec_my_interests e b
          ++ map (projection crop) (filter (sent_by e) (interests_of crop))),
         (spec_my_interests e a), (projection crop' j).
  split; [|split; [|split]].
  - rewrite (listMyInterests_run e s Hne Hwf), Hs.
    unfold spec_my_interests. rewrite flat_map_app. cbn [flat_map].
    rewrite <- !app_assoc. reflexivity.
  - rewrite (listMyInterests_run e _ Hne Hwf').
    unfold spec_my_interests. rewrite flat_map_app. cbn [flat_map].
    unfold interests_of at 2. rewrite Hi, filter_app, map_app. cbn [filter].
    rewrite Hsent. cbn [map].
    rewrite (map_ext _ _ (fun x => projection_after_push _ _ _ x Ha)).
    rewrite <- !app_assoc. reflexivity.
  - exact Hjid.
  - exact Hjst.
Qed.

Lemma listMyInterests_after_submitInterest_witness :
  exists before after record,
    run (listMyInterests (Some "b@x.com")) [crop_D; crop_C]
    = (Send 200 (VArr (before ++ after)), [crop_D; crop_C])
    /\ run (listMyInterests (Some "b@x.com"))
           (snd (run (submitInterest never_consulted first_request crop_id
                        (submission "b@x.com" "B" 2)) [crop_D; crop_C]))
       = (Send 200 (VArr (before ++ record :: after)),
          snd (run (submitInterest never_consulted first_request crop_id
                      (submission "b@x.com" "B" 2)) [crop_D; crop_C]))
    /\ get_prop record "_id" = VOid (fresh_id first_request)
    /\ get_prop record "status" = VStr "pending".
Proof.
  exact (listMyInterests_after_submitInterest never_consulted first_request crop_id
           (submission "b@x.com" "B" 2) "b@x.com" [crop_D; crop_C]
           eq_refl eq_refl eq_refl).
Defined.

(** * The list of a buyer and the update of a crop *)

(** ** The records of [listMyInterests] *)

Lemma get_prop_opt_get_prop o k : get_prop_opt o k = get_prop o k.
Proof. destruct o; reflexivity. Qed.

Lemma projection_spec_record crop i : projection crop i = spec_record crop i.
Proof. unfold projection, spec_record. rewrite get_prop_opt_get_prop. reflexivity. Qed.

Lemma spec_my_interests_records e s : spec_my_interests e s = spec_records e s.
Proof.
  unfold spec_my_interests, spec_records. induction s as [|crop s IH]; [reflexivity|].
  simpl. rewrite IH. f_equal. apply map_ext. intros i. apply projection_spec_record.
Qed.

Lemma without_interests_unpoisoned e crop :
  without_interests crop = true ->
  poisoned e crop = false /\ interests_of crop = [].
Proof.
  unfold without_interests, poisoned, interests_match, interests_of.
  destruct (get_prop crop "interests") as [| | | | | | |[|x l]|];
    try discriminate; intros _; split; reflexivity.
Qed.

(** C9, as stated, fails: crop [C] holds an interest of [c@x.com] after a
    [null], and [listMyInterests] for [c@x.com] is answered with status
    500 and no record. *)
Lemma listMyInterests_fails_on_null_interest :
  In (interest_c (VStr "pending"))
     (interests_of (crop_C_with [VNull; interest_c (VStr "pending")]))
  /\ sent_by "c@x.com" (interest_c (VStr "pending")) = true
  /\ run (listMyInterests (Some "c@x.com"))
         [crop_C_with [VNull; interest_c (VStr "pending")]]
     = (Send 500 (error "Failed to fetch interests"),
        [crop_C_with [VNull; interest_c (VStr "pending")]]).
Proof.
  split; [simpl; auto|]. split; [reflexivity|]. vm_compute. reflexivity.
Qed.

(** C9, amended.  [listMyInterests] with a non-empty email is answered
    with exactly one record for each interest of each crop whose
    [userEmail] is the email, in store order, the record holding the
    interest's [_id], [quantity], [message] and [status], the crop's name
    as [cropName] and the crop's owner name as [ownerName] -- unless some
    crop that the query selects has an [interests] field that is not an
    array or that holds a [null]: then it is answered with status 500.  On
    any collection a crop whose [interests] field is absent or empty is
    none of those crops, does not make the request fail and contributes
    no record: the answer is the one the collection without that crop
    gets. *)
Theorem listMyInterests_projects_each_match (e : string) :
  (forall s,
     e <> "" ->
     existsb (poisoned e) s = false ->
     run (listMyInterests (Some e)) s = (Send 200 (VArr (spec_records e s)), s))
  /\ (forall s,
        e <> "" ->
        existsb (poisoned e) s = true ->
        run (listMyInterests (Some e)) s
        = (Send 500 (error "Failed to fetch interests"), s))
  /\ (forall before crop after,
        without_interests crop = true ->
        poisoned e crop = false
        /\ run (listMyInterests (Some e)) (before ++ crop :: after)
           = (fst (run (listMyInterests (Some e)) (before ++ after)),
              before ++ crop :: after)
        /\ spec_records e (before ++ crop :: after) = spec_records e (before ++ after)).
Proof.
  split; [|split].
  - intros s He Hp. unfold listMyInterests. simpl truthy.
    apply String.eqb_neq in He. rewrite He. simpl.
    rewrite all_records_exact, Hp, spec_my_interests_records. reflexivity.
  - intros s He Hp. unfold listMyInterests. simpl truthy.
    apply String.eqb_neq in He. rewrite He. simpl.
    rewrite all_records_exact, Hp. reflexivity.
  - intros before crop after Hc.
    destruct (without_interests_unpoisoned e crop Hc) as [Hp Hi].
    split; [exact Hp|]. split.
    + unfold listMyInterests. destruct (negb (truthy (VStr e))); [reflexivity|].
      simpl. rewrite (findAll_skip e before crop after Hc).
      destruct (all_records _ _); reflexivity.
    + rewrite <- !spec_my_interests_records. apply spec_my_interests_skip. exact Hi.
Qed.

Lemma listMyInterests_projects_each_match_witness :
  run (listMyInterests (Some "b@x.com"))
      [crop_C; crop_C_with []; crop_C_with [interest_b (VStr "pending")]]
  = (Send 200 (VArr [VObj [ ("_id", VOid 1%N); ("cropName", VStr "Rice");
                            ("ownerName", VStr "A"); ("quantity", VNum 2%Q);
                            ("message", VNull); ("status", VStr "pending") ]]),
     [crop_C; crop_C_with []; crop_C_with [interest_b (VStr "pending")]])
  /\ run (listMyInterests (Some "c@x.com"))
         [crop_D; crop_C_with [VNull; interest_c (VStr "pending")]]
     = (Send 500 (error "Failed to fetch interests"),
        [crop_D; crop_C_with [VNull; interest_c (VStr "pending")]])
  /\ run (listMyInterests (Some "b@x.com"))
         ([crop_C_with [interest_b (VStr "pending")]] ++ crop_C :: [])
     = (fst (run (listMyInterests (Some "b@x.com"))
                 ([crop_C_with [interest_b (VStr "pending")]] ++ [])),
        [crop_C_with [interest_b (VStr "pending")]] ++ crop_C :: []).
Proof.
  split; [|split].
  - apply (proj1 (listMyInterests_projects_each_match "b@x.com")
             [crop_C; crop_C_with []; crop_C_with [interest_b (VStr "pending")]]
             ltac:(discriminate) eq_refl).
  - apply (proj1 (proj2 (listMyInterests_projects_each_match "c@x.com"))
             [crop_D; crop_C_with [VNull; interest_c (VStr "pending")]]
             ltac:(discriminate) eq_refl).
  - apply (proj2 (proj2 (listMyInterests_projects_each_match "b@x.com"))
             [crop_C_with [interest_b (VStr "pending")]] crop_C [] eq_refl).
Defined.

(** ** What [$set] of a body writes *)

















